(** * Sequence convolution layers: a shallow embedding of
      [sequence_convolution/models.py]

    The development follows the Python source class by class.  Python
    code that can raise is embedded in an error monad ([result]); code
    that mutates an object in place is embedded by passing the object's
    new contents along.  GPU arrays and the numeric kernels that the
    module imports are an interface ([GpuOps]); nothing is assumed about
    them, so every general statement holds for any implementation of the
    kernels and for any floating-point arithmetic on the device. *)

From Stdlib Require Import ZArith QArith Qround Lia.
From stdpp Require Import base option list gmap strings.

Local Open Scope Z_scope.

(** ** Python exceptions and the error monad *)

Inductive exn : Type :=
  | KeyError (key : string)
  | IndexError
  | AssertionError
  | TypeError
  | AttributeError
  | ValueError (msg : string)
  | ZeroDivisionError
  | UnboundLocalError (var : string).

Inductive result (A : Type) : Type :=
  | Ok (a : A)
  | Raise (e : exn).
Arguments Ok {A} a.
Arguments Raise {A} e.

Global Instance result_ret : MRet result := fun _ a => Ok a.
Global Instance result_bind : MBind result := fun _ _ f m =>
  match m with
  | Ok a => f a
  | Raise e => Raise e
  end.

(** [assert c] *)
Definition py_assert (c : bool) : result unit :=
  if c then Ok tt else Raise AssertionError.

(** A bare [raise ValueError] carries no message. *)
Definition bare_ValueError : exn := ValueError EmptyString.

(** ** Python lists *)

(** [l[i]] for a Python integer [i]: a negative index counts from the end
    of the list, anything outside [-len, len) raises [IndexError]. *)
Definition py_resolve (len : nat) (i : Z) : result nat :=
  let n := Z.of_nat len in
  let j := if decide (i < 0) then i + n else i in
  if decide (0 <= j < n) then Ok (Z.to_nat j) else Raise IndexError.

Definition py_index {A : Type} (l : list A) (i : Z) : result A :=
  j ← py_resolve (length l) i;
  match l !! j with
  | Some x => Ok x
  | None => Raise IndexError
  end.

(** [l[i] = x] *)
Definition py_setindex {A : Type} (l : list A) (i : Z) (x : A)
  : result (list A) :=
  j ← py_resolve (length l) i;
  Ok (<[j := x]> l).

(** [izip(xs, ys)] and [izip(xs, ys, zs)]: both stop at the shortest
    argument. *)
Fixpoint izip {A B : Type} (xs : list A) (ys : list B) : list (A * B) :=
  match xs, ys with
  | x :: xs', y :: ys' => (x, y) :: izip xs' ys'
  | _, _ => []
  end.

Definition izip3 {A B C : Type} (xs : list A) (ys : list B) (zs : list C)
  : list (A * B * C) :=
  izip (izip xs ys) zs.

(** A [for] loop whose body can raise and that threads a state [S]. *)
Fixpoint for_each {A S : Type} (body : A -> S -> result S)
    (xs : list A) (s : S) : result S :=
  match xs with
  | [] => Ok s
  | x :: xs' => s' ← body x s; for_each body xs' s'
  end.

(** ** Python numbers

    Python 2 integers are unbounded ([Z]); [/] on two integers is floor
    division and raises on a zero divisor.  Python floats that the module
    only stores, compares with zero or hands to a kernel (penalty weights,
    learning-rate multipliers, weight scales) are rationals ([Q]): every
    finite float is one. *)

Definition py_int_div (a b : Z) : result Z :=
  if decide (b = 0) then Raise ZeroDivisionError else Ok (a / b).

(** [n / float(d)] followed by [int(np.ceil(_))].  The float quotient is
    embedded as the exact rational quotient: the two have the same
    ceiling as long as the operands are below 2^53 in absolute value,
    far above any sequence length; dividing by [0.0] raises. *)
Definition py_ceil_fdiv (n d : Z) : result Z :=
  if decide (d = 0) then Raise ZeroDivisionError
  else Ok (Qceiling (inject_Z n / inject_Z d)).

(** ** The GPU interface

    [pycuda.gpuarray], [pycuda.curandom], [neural_nets.pycuda_ops] and the
    package's own [pycuda_ops] are imported by the module, not defined in
    it.  [Tensor] is a GPU array, [Rng] the state of the device's random
    generator. *)

Class GpuOps (Tensor Rng : Type) : Type := {
  (** [x.shape] *)
  shape : Tensor -> list Z;
  (** [gpuarray.empty(shape, dtype)], [gpuarray.zeros(shape, dtype)] *)
  gpu_empty : list Z -> Tensor;
  gpu_zeros : list Z -> Tensor;
  (** [curand(shape, dtype)]; the number tells successive calls apart *)
  curand : Rng -> nat -> list Z -> Tensor;
  (** elementwise [x + y], [x - y], [x * y] *)
  tadd : Tensor -> Tensor -> Tensor;
  tsub : Tensor -> Tensor -> Tensor;
  tmul : Tensor -> Tensor -> Tensor;
  (** [c * x] and [x - c] for a Python float [c] *)
  smul : Q -> Tensor -> Tensor;
  ssub : Tensor -> Q -> Tensor;
  (** [neural_nets.pycuda_ops.elementwise] *)
  sign : Tensor -> Tensor;
  sample_dropout_mask : Rng -> Tensor -> Tensor;
  apply_dropout_mask : Tensor -> Tensor -> Tensor;
  (** [neural_nets.pycuda_ops.matrix] *)
  extract_columns : Tensor -> Z -> Z -> Tensor;
  insert_columns : Tensor -> Tensor -> Z -> Tensor;
  (** the package's [pycuda_ops] *)
  convolve_sequence : Tensor -> Tensor -> Tensor -> Tensor;
  convolve_sequence_gradient : Tensor -> Tensor -> Z -> Z -> Tensor;
  sum_delta : Tensor -> Z -> Tensor;
  (** [max_pool(x, pool_size, n_filters)] returns fresh arrays *)
  max_pool : Tensor -> Z -> Z -> Tensor * Tensor;
  (** [max_pool(x, pool_size, n_filters, width=, pooled_offset=,
      target=, argmax=)] writes into [target] and [argmax] *)
  max_pool_into : Tensor -> Z -> Z -> Z -> Z -> Tensor -> Tensor
                  -> Tensor * Tensor;
  (** [max_pool_gradient(x, argmax, df_output, pool_size, n_filters)] *)
  max_pool_gradient : Tensor -> Tensor -> Tensor -> Z -> Z -> Tensor;
  (** the same with [width_pooled=] and [pooled_offset=] *)
  max_pool_gradient_at : Tensor -> Tensor -> Tensor -> Z -> Z -> Z -> Z
                         -> Tensor
}.

(** ** MaxPoolingLayer *)

Module MaxPoolingLayer.

(** [_compute_n_units] (static method) *)
Definition _compute_n_units (n_in pool_size n_filters : Z) : result Z :=
  c ← py_ceil_fdiv n_in pool_size;
  Ok (c * n_filters).

Record t : Type := {
  n_in : Z;
  pool_size : Z;
  n_filters : Z;
  l1_penalty_weight : Q;
  l2_penalty_weight : Q;
  dropout : bool;
  n_units : Z
}.

(** [__init__]: the two penalty arguments are accepted and not read. *)
Definition __init__ (n_in pool_size n_filters : Z) (dropout : bool)
    (l1_penalty_weight l2_penalty_weight : Q) : result t :=
  n_units ← _compute_n_units n_in pool_size n_filters;
  Ok {| n_in := n_in;
        pool_size := pool_size;
        n_filters := n_filters;
        l1_penalty_weight := 0%Q;
        l2_penalty_weight := 0%Q;
        dropout := dropout;
        n_units := n_units |}.

(** The properties [l1_penalty] and [l2_penalty]. *)
Definition l1_penalty (self : t) : Q := 0%Q.
Definition l2_penalty (self : t) : Q := 0%Q.

(** The class attribute [n_parameters] and the property [parameters]. *)
Definition n_parameters : Z := 0.

Section Methods.
Context {Tensor Rng : Type} `{!GpuOps Tensor Rng}.

(** An element of a cache tuple: a GPU array or [None]. *)
Inductive pyobj : Type :=
  | PyNone
  | PyArr (x : Tensor).

Definition parameters (self : t) : list Tensor := [].

(** [feed_forward]; the result is the returned tuple. *)
Definition feed_forward (self : t) (input : Tensor) (prediction : bool)
    (rng : Rng) : list pyobj :=
  let '(activations, argmax) :=
    max_pool input (pool_size self) (n_filters self) in
  let activations :=
    if dropout self && prediction then smul (1 # 2) activations
    else activations in
  if dropout self && negb prediction then
    let dropout_mask := sample_dropout_mask rng activations in
    [PyArr activations; PyArr argmax; PyArr dropout_mask]
  else
    [PyArr activations; PyArr argmax].

(** The local variables of [backprop] after the test on [len(cache)];
    [lv_dropout_mask = None] means the name was never bound. *)
Record locals : Type := {
  lv_activations : pyobj;
  lv_argmax : pyobj;
  lv_dropout_mask : option pyobj
}.

(** Lines 134-139. *)
Definition unpack_cache (cache : list pyobj) : result locals :=
  match cache with
  | [activations; argmax] =>
      Ok {| lv_activations := activations; lv_argmax := argmax;
            lv_dropout_mask := None |}
  | [activations; argmax; dropout_mask] =>
      Ok {| lv_activations := activations; lv_argmax := argmax;
            lv_dropout_mask := Some dropout_mask |}
  | _ => Raise bare_ValueError
  end.

(** [x.shape] on a tuple element. *)
Definition obj_array (o : pyobj) : result Tensor :=
  match o with
  | PyArr x => Ok x
  | PyNone => Raise AttributeError
  end.

(** [n, fm = x.shape] *)
Definition unpack_shape2 (x : Tensor) : result (Z * Z) :=
  match shape x with
  | [n; fm] => Ok (n, fm)
  | [] | [_] => Raise (ValueError "need more than 1 value to unpack")
  | _ => Raise (ValueError "too many values to unpack")
  end.

(** [x.reshape(dims)] raises unless the number of elements is kept;
    the reshaped array is not needed afterwards. *)
Definition check_reshape (x : Tensor) (dims : list Z) : result unit :=
  if decide (foldr Z.mul 1 dims = foldr Z.mul 1 (shape x)) then Ok tt
  else Raise (ValueError "total size of new array must be unchanged").

(** Lines 141-142: [self.dropout and dropout_mask is not None].  The
    name [dropout_mask] is read only if [self.dropout] is true. *)
Definition mask_df_output (self : t) (lv : locals) (df_output : Tensor)
    : result Tensor :=
  if dropout self then
    match lv_dropout_mask lv with
    | None => Raise (UnboundLocalError "dropout_mask")
    | Some PyNone => Ok df_output
    | Some (PyArr mask) => Ok (apply_dropout_mask df_output mask)
    end
  else Ok df_output.

(** [backprop].  [cache = None] is Python's [None].  The result is the
    (empty) tuple of parameter gradients and [df_input]. *)
Definition backprop (self : t) (input df_output : Tensor)
    (cache : option (list pyobj)) (rng : Rng)
    : result (list Tensor * Tensor) :=
  let cache :=
    match cache with
    | None => feed_forward self input false rng
    | Some c => c
    end in
  lv ← unpack_cache cache;
  df_output ← mask_df_output self lv df_output;
  activations ← obj_array (lv_activations lv);
  '(n, fm) ← unpack_shape2 activations;
  q ← py_int_div fm (n_filters self);
  _ ← check_reshape activations [n; n_filters self; q];
  argmax ← obj_array (lv_argmax lv);
  let df_input :=
    max_pool_gradient input argmax df_output
                      (pool_size self) (n_filters self) in
  Ok ([], df_input).

End Methods.

Arguments pyobj Tensor : clear implicits.
Arguments locals Tensor : clear implicits.

End MaxPoolingLayer.

(** ** Values held by a region descriptor

    A region is a Python [dict] with string keys.  Its values are
    integers, floats, strings, GPU arrays and the activation function
    with its derivative. *)

Inductive value (Tensor : Type) : Type :=
  | VInt (z : Z)
  | VFloat (q : Q)
  | VStr (s : string)
  | VArr (x : Tensor)
  | VFun (f : Tensor -> Tensor).
Arguments VInt {Tensor} z.
Arguments VFloat {Tensor} q.
Arguments VStr {Tensor} s.
Arguments VArr {Tensor} x.
Arguments VFun {Tensor} f.

Abbreviation dict Tensor := (gmap string (value Tensor)).

(** [neural_nets.models.HiddenLayer], as far as this module uses it. *)
Record HiddenLayer (Tensor : Type) : Type := {
  fc_n_units : Z;
  fc_dropout : bool;
  fc_n_parameters : Z;
  fc_parameters : list Tensor;
  (** [feed_forward(input, prediction)] returns a tuple *)
  fc_feed_forward : Tensor -> bool -> list Tensor;
  (** [backprop(input, df_output, cache)] returns [(gradients, df_input)] *)
  fc_backprop : Tensor -> Tensor -> option Tensor -> list Tensor * Tensor
}.
Arguments fc_n_units {Tensor} _.
Arguments fc_dropout {Tensor} _.
Arguments fc_n_parameters {Tensor} _.
Arguments fc_parameters {Tensor} _.
Arguments fc_feed_forward {Tensor} _ _ _.
Arguments fc_backprop {Tensor} _ _ _ _.

(** What the module inherits from [HiddenLayer]. *)
Class NeuralNets (Tensor : Type) : Type := {
  (** [self._resolve_activation_fct(name)] returns [(f, df)];
      [f] works in place, [df] returns a new array *)
  _resolve_activation_fct :
    string -> result ((Tensor -> Tensor) * (Tensor -> Tensor));
  (** [HiddenLayer( *d )] for a dictionary [d]: the keys become the
      positional arguments *)
  HiddenLayer_new : list string -> result (HiddenLayer Tensor)
}.

Section Values.
Context {Tensor : Type}.

(** [d[k]] *)
Definition getitem (d : dict Tensor) (k : string) : result (value Tensor) :=
  match d !! k with
  | Some v => Ok v
  | None => Raise (KeyError k)
  end.

(** [d.has_key(k)] *)
Definition has_key (d : dict Tensor) (k : string) : bool :=
  match d !! k with
  | Some _ => true
  | None => false
  end.

(** A value of the wrong kind under a key is reported as [TypeError]. *)
Definition as_int (v : value Tensor) : result Z :=
  match v with VInt z => Ok z | _ => Raise TypeError end.
Definition as_num (v : value Tensor) : result Q :=
  match v with
  | VFloat q => Ok q
  | VInt z => Ok (inject_Z z)
  | _ => Raise TypeError
  end.
Definition as_str (v : value Tensor) : result string :=
  match v with VStr s => Ok s | _ => Raise TypeError end.
Definition as_arr (v : value Tensor) : result Tensor :=
  match v with VArr x => Ok x | _ => Raise TypeError end.
Definition as_fun (v : value Tensor) : result (Tensor -> Tensor) :=
  match v with VFun f => Ok f | _ => Raise TypeError end.

Definition get_int (d : dict Tensor) (k : string) : result Z :=
  v ← getitem d k; as_int v.
Definition get_num (d : dict Tensor) (k : string) : result Q :=
  v ← getitem d k; as_num v.
Definition get_fun (d : dict Tensor) (k : string)
  : result (Tensor -> Tensor) :=
  v ← getitem d k; as_fun v.

(** [if v:] *)
Definition truthy (v : value Tensor) : bool :=
  match v with
  | VInt z => negb (Z.eqb z 0)
  | VFloat q => negb (Qeq_bool q 0)
  | VStr s => negb (String.eqb s EmptyString)
  | VArr _ | VFun _ => true
  end.

(** [v > 0.] *)
Definition gt_zero (v : value Tensor) : result bool :=
  q ← as_num v;
  Ok (if Qlt_le_dec 0 q then true else false).

(** [v == 'master'] *)
Definition is_master (v : value Tensor) : bool :=
  match v with
  | VStr s => String.eqb s "master"
  | _ => false
  end.

(** [if x is not None: layer[k] = x] *)
Definition replace_default (k : string) (x : option (value Tensor))
    (layer : dict Tensor) : dict Tensor :=
  match x with
  | Some v => <[k := v]> layer
  | None => layer
  end.

(** [if not layer.has_key(k): layer[k] = v] *)
Definition setdefault (k : string) (v : value Tensor)
    (layer : dict Tensor) : dict Tensor :=
  if has_key layer k then layer else <[k := v]> layer.

End Values.

(** ** MultiSequenceConvolutionLayer *)

Module MultiSequenceConvolutionLayer.

Section Layer.
Context {Tensor Rng : Type} `{!GpuOps Tensor Rng} `{!NeuralNets Tensor}.

(** The argument [fully_connected_layer]: a dictionary (given by its
    keys), a [HiddenLayer], [None], or anything else. *)
Inductive fc_arg : Type :=
  | FcDict (keys : list string)
  | FcLayer (h : HiddenLayer Tensor)
  | FcNone
  | FcOther.

(** The arguments of [__init__]; [None] is Python's [None].  [dtype] only
    travels to the allocators and is left out. *)
Record init_args : Type := {
  arg_subregion_layers : list (dict Tensor);
  arg_fully_connected_layer : fc_arg;
  arg_n_filters : option Z;
  arg_filter_width : option Z;
  arg_pool_size : option Z;
  arg_activation_function : option string;
  arg_dropout : option bool;
  arg_lr_multiplier : option Q;
  arg_l1_penalty_weight : option Q;
  arg_l2_penalty_weight : option Q;
  arg_weight_scale : Q
}.

(** The object after [__init__]. *)
Record t : Type := {
  subregion_layers : list (dict Tensor);
  W : list Tensor;
  b : list Tensor;
  dropout : option bool;
  fully_connected_layer : option (HiddenLayer Tensor);
  n_units : Z;
  fc_layer_offset : Z;
  master_layers : list (dict Tensor);
  l1_penalty_weight : bool;
  l2_penalty_weight : bool
}.

(** What the loop of [__init__] has in hand: the region dictionaries
    (updated in place, so later regions see what earlier ones were
    given), [self.W], [self.b] and the two counters. *)
Record build : Type := {
  regions : list (dict Tensor);
  bW : list Tensor;
  bb : list Tensor;
  output_offset : Z;
  param_idx : Z
}.

(** Lines 178-192, [# Replace defaults]. *)
Definition replace_defaults (a : init_args) (layer : dict Tensor)
    : dict Tensor :=
  let layer := replace_default "n_filters" (VInt <$> arg_n_filters a) layer in
  let layer :=
    replace_default "filter_width" (VInt <$> arg_filter_width a) layer in
  let layer := replace_default "pool_size" (VInt <$> arg_pool_size a) layer in
  let layer :=
    replace_default "activation_function"
                    (VStr <$> arg_activation_function a) layer in
  let layer :=
    replace_default "l1_penalty_weight"
                    (VFloat <$> arg_l1_penalty_weight a) layer in
  let layer :=
    replace_default "l2_penalty_weight"
                    (VFloat <$> arg_l2_penalty_weight a) layer in
  replace_default "lr_multiplier" (VFloat <$> arg_lr_multiplier a) layer.

(** Lines 195-226: a region without [weight_share]. *)
Definition init_master (a : init_args) (rng : Rng) (layer : dict Tensor)
    (s : build) : result (dict Tensor * build) :=
  let layer := <["layer_type" := VStr "master"]> layer in
  let _weight_scale :=
    match layer !! "weight_scale" with
    | Some v => v
    | None => VFloat (arg_weight_scale a)
    end in
  W ← (if negb (has_key layer "W") then
         nf ← get_int layer "n_filters";
         fw ← get_int layer "filter_width";
         ws ← as_num _weight_scale;
         Ok (ssub (smul ws (curand rng (length (bW s)) [nf; 4 * fw]))
                  ((1 # 2) * ws)%Q)
       else v ← getitem layer "W"; as_arr v);
  nf ← get_int layer "n_filters";
  fw ← get_int layer "filter_width";
  _ ← py_assert (bool_decide (shape W = [nf; 4 * fw]));
  let sW := bW s ++ [W] in
  b ← (if negb (has_key layer "b") then
         nf ← get_int layer "n_filters";
         Ok (gpu_zeros [nf])
       else v ← getitem layer "b"; as_arr v);
  nf ← get_int layer "n_filters";
  _ ← py_assert (bool_decide (shape b = [nf]));
  let sb := bb s ++ [b] in
  let layer := <["param_idx" := VInt (param_idx s)]> layer in
  let param_idx := param_idx s + 1 in
  name ← (v ← getitem layer "activation_function"; as_str v);
  '(f, df) ← _resolve_activation_fct name;
  let layer := <["f" := VFun f]> layer in
  let layer := <["df" := VFun df]> layer in
  let layer := setdefault "l1_penalty_weight" (VFloat 0) layer in
  let layer := setdefault "l2_penalty_weight" (VFloat 0) layer in
  let layer := setdefault "lr_multiplier" (VFloat 1) layer in
  Ok (layer, {| regions := regions s; bW := sW; bb := sb;
                output_offset := output_offset s;
                param_idx := param_idx |}).

(** [layer[k] = master_layer[k]] *)
Definition copy_key (k : string) (master_layer layer : dict Tensor)
    : result (dict Tensor) :=
  v ← getitem master_layer k;
  Ok (<[k := v]> layer).

(** Lines 229-236: a region with [weight_share].  [others] is the list
    [subregion_layers] as it stands, holding this region's dictionary at
    its own position: a reference of a region to itself reads the
    dictionary being filled, and then every copy writes back the value
    it has just read. *)
Definition init_slave (layer : dict Tensor) (i : nat)
    (others : list (dict Tensor)) : result (dict Tensor) :=
  let layer := <["layer_type" := VStr "slave"]> layer in
  w ← get_int layer "weight_share";
  master_layer ← py_index (<[i := layer]> others) w;
  layer ← copy_key "n_filters" master_layer layer;
  layer ← copy_key "filter_width" master_layer layer;
  layer ← copy_key "param_idx" master_layer layer;
  layer ← copy_key "activation_function" master_layer layer;
  layer ← copy_key "f" master_layer layer;
  copy_key "df" master_layer layer.

(** One turn of the loop over [subregion_layers] (lines 175-242), for
    the region at position [i]. *)
Definition init_region (a : init_args) (rng : Rng) (i : nat) (s : build)
    : result build :=
  match regions s !! i with
  | None => Raise IndexError
  | Some layer =>
      _ ← getitem layer "n_in";
      let layer := replace_defaults a layer in
      '(layer, s) ←
        (if negb (has_key layer "weight_share") then
           init_master a rng layer s
         else
           layer ← init_slave layer i (regions s); Ok (layer, s));
      n_in ← get_int layer "n_in";
      ps ← get_int layer "pool_size";
      nf ← get_int layer "n_filters";
      units ← MaxPoolingLayer._compute_n_units n_in ps nf;
      let layer := <["n_units" := VInt units]> layer in
      let layer := <["output_offset" := VInt (output_offset s)]> layer in
      Ok {| regions := <[i := layer]> (regions s);
            bW := bW s; bb := bb s;
            output_offset := output_offset s + units;
            param_idx := param_idx s |}
  end.

(** [sum(layer['n_units'] for layer in subregion_layers)] *)
Fixpoint sum_n_units (ls : list (dict Tensor)) (acc : Z) : result Z :=
  match ls with
  | [] => Ok acc
  | l :: ls' => u ← get_int l "n_units"; sum_n_units ls' (acc + u)
  end.

(** [filter(lambda l: l['layer_type'] == 'master', subregion_layers)] *)
Fixpoint filter_masters (ls : list (dict Tensor))
    : result (list (dict Tensor)) :=
  match ls with
  | [] => Ok []
  | l :: ls' =>
      v ← getitem l "layer_type";
      rest ← filter_masters ls';
      Ok (if is_master v then l :: rest else rest)
  end.

(** [any(l[k] > 0. for l in ls)] *)
Fixpoint any_gt_zero (k : string) (ls : list (dict Tensor)) : result bool :=
  match ls with
  | [] => Ok false
  | l :: ls' =>
      v ← getitem l k;
      c ← gt_zero v;
      if (c : bool) then Ok true else any_gt_zero k ls'
  end.

(** Lines 244-252. *)
Definition resolve_fc (x : fc_arg) : result (option (HiddenLayer Tensor)) :=
  match x with
  | FcDict keys => h ← HiddenLayer_new keys; Ok (Some h)
  | FcLayer h => Ok (Some h)
  | FcNone => Ok None
  | FcOther => Raise TypeError
  end.

(** [__init__] *)
Definition __init__ (a : init_args) (rng : Rng) : result t :=
  let layers := arg_subregion_layers a in
  s ← for_each (init_region a rng) (seq 0 (length layers))
        {| regions := layers; bW := []; bb := [];
           output_offset := 0; param_idx := 0 |};
  fc ← resolve_fc (arg_fully_connected_layer a);
  _ ← match fc with
      | Some h =>
          if fc_dropout h then
            Raise (ValueError
              "Dropout on fully connected layer is not allowed,set dropout on MultiSequenceConvolutionLayer instead.")
          else Ok tt
      | None => Ok tt
      end;
  units ← sum_n_units (regions s) 0;
  let '(offset, total) :=
    match fc with
    | Some h => (units, units + fc_n_units h)
    | None => (0, units)
    end in
  masters ← filter_masters (regions s);
  l1 ← any_gt_zero "l1_penalty_weight" masters;
  l2 ← any_gt_zero "l2_penalty_weight" masters;
  Ok {| subregion_layers := regions s;
        W := bW s;
        b := bb s;
        dropout := arg_dropout a;
        fully_connected_layer := fc;
        n_units := total;
        fc_layer_offset := offset;
        master_layers := masters;
        l1_penalty_weight := l1;
        l2_penalty_weight := l2 |}.

(** The property [n_parameters]. *)
Definition n_parameters (self : t) : Z :=
  let n_param := Z.of_nat (length (W self)) + Z.of_nat (length (b self)) in
  match fully_connected_layer self with
  | Some h => n_param + fc_n_parameters h
  | None => n_param
  end.

(** The property [parameters] (getter). *)
Definition parameters (self : t) : list Tensor :=
  let param := W self ++ b self in
  match fully_connected_layer self with
  | Some h => param ++ fc_parameters h
  | None => param
  end.

(** [if self.dropout]: [None] and [False] are both false. *)
Definition dropout_on (self : t) : bool := default false (dropout self).

(** The tuple that [feed_forward] returns and [backprop] takes as
    [cache]; [None] in the last two fields is Python's [None]. *)
Record cache : Type := {
  c_activations_pooled : Tensor;
  c_argmax : Tensor;
  c_filtermaps : list Tensor;
  c_dropout_mask : option Tensor;
  c_activations_fc : option Tensor
}.

(** [x.shape[k]] *)
Definition shape_at (x : Tensor) (k : Z) : result Z := py_index (shape x) k.

(** [all(first.shape[0] == i.shape[0] for i in rest)] *)
Fixpoint all_same_batch (first : Tensor) (rest : list Tensor)
    : result bool :=
  match rest with
  | [] => Ok true
  | i :: rest' =>
      n ← shape_at first 0;
      m ← shape_at i 0;
      if decide (n = m) then all_same_batch first rest' else Ok false
  end.

(** The body of the loop of [feed_forward] (lines 361-374); the state is
    [filtermaps] and the two buffers the pooling kernel writes into. *)
Definition feed_forward_region (self : t) (p : Tensor * dict Tensor)
    (st : list Tensor * Tensor * Tensor)
    : result (list Tensor * Tensor * Tensor) :=
  let '(input_region, layer) := p in
  let '(filtermaps, activations_pooled, argmax) := st in
  idx ← get_int layer "param_idx";
  W_ ← py_index (W self) idx;
  b_ ← py_index (b self) idx;
  act_fct ← get_fun layer "f";
  let filtermap := act_fct (convolve_sequence input_region W_ b_) in
  let filtermaps := filtermaps ++ [filtermap] in
  ps ← get_int layer "pool_size";
  nf ← get_int layer "n_filters";
  width ← get_int layer "n_in";
  off ← get_int layer "output_offset";
  let '(activations_pooled, argmax) :=
    max_pool_into filtermap ps nf width off activations_pooled argmax in
  Ok (filtermaps, activations_pooled, argmax).

(** [feed_forward] *)
Definition feed_forward (self : t) (input : list Tensor) (prediction : bool)
    (rng : Rng) : result cache :=
  first ← py_index input 0;
  same ← all_same_batch first (tail input);
  _ ← py_assert same;
  N ← shape_at first 0;
  let activations_pooled := gpu_empty [N; n_units self] in
  let argmax := gpu_empty (shape activations_pooled) in
  '(filtermaps, activations_pooled, argmax) ←
    for_each (feed_forward_region self)
             (izip input (subregion_layers self))
             ([], activations_pooled, argmax);
  '(activations_pooled, activations_fc) ←
    match fully_connected_layer self with
    | Some fc =>
        _ ← py_assert (bool_decide
               (length input = S (length (subregion_layers self))));
        last ← py_index input (-1);
        activations_fc ← py_index (fc_feed_forward fc last prediction) 0;
        Ok (insert_columns activations_fc activations_pooled
                           (fc_layer_offset self),
            Some activations_fc)
    | None => Ok (activations_pooled, None)
    end;
  let dropout_mask :=
    if dropout_on self && negb prediction then
      Some (sample_dropout_mask rng activations_pooled)
    else None in
  Ok {| c_activations_pooled := activations_pooled;
        c_argmax := argmax;
        c_filtermaps := filtermaps;
        c_dropout_mask := dropout_mask;
        c_activations_fc := activations_fc |}.

(** [accumulator[idx] += g]: the array at [idx] is read, added to in
    place and stored back. *)
Definition iadd_at (accumulator : list Tensor) (idx : Z) (g : Tensor)
    : result (list Tensor) :=
  x ← py_index accumulator idx;
  py_setindex accumulator idx (tadd x g).

(** Lines 408-422: the gradient of one region taken by itself,
    [(df_filtermap, df_W_layer, df_b_layer)]. *)
Definition region_gradient (argmax df_output : Tensor)
    (input_region filtermap : Tensor) (layer : dict Tensor)
    : result (Tensor * Tensor * Tensor) :=
  act_df ← get_fun layer "df";
  ps ← get_int layer "pool_size";
  nf ← get_int layer "n_filters";
  units ← get_int layer "n_units";
  width_pooled ← py_int_div units nf;
  off ← get_int layer "output_offset";
  let df_filtermap :=
    max_pool_gradient_at filtermap argmax df_output ps nf width_pooled off in
  let df_conv := act_df filtermap in
  let delta := tmul df_conv df_filtermap in
  let df_b_layer := sum_delta delta nf in
  fw ← get_int layer "filter_width";
  let df_W_layer := convolve_sequence_gradient input_region delta fw nf in
  Ok (df_filtermap, df_W_layer, df_b_layer).

(** Lines 424-429: a master appends its gradient, a slave adds its
    gradient to the entry at its [param_idx]. *)
Definition accumulate (layer : dict Tensor) (df_W_layer df_b_layer : Tensor)
    (df_W df_b : list Tensor) : result (list Tensor * list Tensor) :=
  kind ← getitem layer "layer_type";
  if is_master kind then Ok (df_W ++ [df_W_layer], df_b ++ [df_b_layer])
  else
    idx ← get_int layer "param_idx";
    df_W ← iadd_at df_W idx df_W_layer;
    df_b ← iadd_at df_b idx df_b_layer;
    Ok (df_W, df_b).

(** The body of the first loop of [backprop] (lines 406-429); the state
    is [df_W], [df_b] and [df_filtermaps]. *)
Definition backprop_region (argmax df_output : Tensor)
    (p : Tensor * Tensor * dict Tensor)
    (st : list Tensor * list Tensor * list Tensor)
    : result (list Tensor * list Tensor * list Tensor) :=
  let '(input_region, filtermap, layer) := p in
  let '(df_W, df_b, df_filtermaps) := st in
  '(df_filtermap, df_W_layer, df_b_layer) ←
    region_gradient argmax df_output input_region filtermap layer;
  let df_filtermaps := df_filtermaps ++ [df_filtermap] in
  '(df_W, df_b) ← accumulate layer df_W_layer df_b_layer df_W df_b;
  Ok (df_W, df_b, df_filtermaps).

(** [c * xs] for a Python list [xs]: an integer repeats the list, no
    other number multiplies a list. *)
Definition mul_list (c : value Tensor) (xs : list Tensor)
    : result (list Tensor) :=
  match c with
  | VInt z => Ok (concat (replicate (Z.to_nat z) xs))
  | _ => Raise TypeError
  end.

(** [x -= ys] for a GPU array [x] and a Python list [ys]: a list is no
    operand of an array. *)
Definition isub_list (x : Tensor) (ys : list Tensor) : result Tensor :=
  Raise TypeError.

(** The body of the second loop of [backprop] (lines 432-435).  The
    arrays of [df_W] are updated in place; [self.W] is the list of all
    weight arrays. *)
Definition backprop_penalty (self : t) (df_W_i : Tensor)
    (layer : dict Tensor) : result Tensor :=
  l1 ← getitem layer "l1_penalty_weight";
  df_W_i ← (if truthy l1 then
              c ← as_num l1;
              Ok (tsub df_W_i (smul c (sign df_W_i)))
            else Ok df_W_i);
  l2 ← getitem layer "l2_penalty_weight";
  if truthy l2 then
    ys ← mul_list l2 (W self);
    isub_list df_W_i ys
  else Ok df_W_i.

(** [for df_W_i, layer in izip(df_W, self.master_layers)] *)
Fixpoint backprop_penalties (self : t) (df_W : list Tensor)
    (masters : list (dict Tensor)) : result (list Tensor) :=
  match df_W, masters with
  | df_W_i :: df_W', layer :: masters' =>
      g ← backprop_penalty self df_W_i layer;
      rest ← backprop_penalties self df_W' masters';
      Ok (g :: rest)
  | _, _ => Ok df_W
  end.

(** What [backprop] returns: the list of parameter gradients, the
    gradients of the filter maps, the input gradient of the
    fully-connected branch if there is one, and [df_output] as the call
    leaves it (the mask is applied in place). *)
Record gradients : Type := {
  g_parameters : list Tensor;
  g_filtermaps : list Tensor;
  g_input_fc : option Tensor;
  g_df_output : Tensor
}.

(** Lines 399-400. *)
Definition mask_df_output (self : t) (c : cache) (df_output : Tensor)
    : Tensor :=
  if dropout_on self then
    match c_dropout_mask c with
    | Some dropout_mask => apply_dropout_mask df_output dropout_mask
    | None => df_output
    end
  else df_output.

(** [backprop] *)
Definition backprop (self : t) (input : list Tensor) (df_output : Tensor)
    (cache_ : option cache) (rng : Rng) : result gradients :=
  c ← match cache_ with
      | None => feed_forward self input false rng
      | Some c => Ok c
      end;
  let df_output := mask_df_output self c df_output in
  '(df_W, df_b, df_filtermaps) ←
    for_each (backprop_region (c_argmax c) df_output)
             (izip3 input (c_filtermaps c) (subregion_layers self))
             ([], [], []);
  df_W ← backprop_penalties self df_W (master_layers self);
  match fully_connected_layer self with
  | Some fc =>
      _ ← py_assert (bool_decide
             (length input = S (length (subregion_layers self))));
      input_fc ← py_index input (-1);
      ncols ← shape_at df_output 1;
      let df_output_fc :=
        extract_columns df_output (fc_layer_offset self) ncols in
      let '(grad_fc, df_input_fc) :=
        fc_backprop fc input_fc df_output_fc (c_activations_fc c) in
      Ok {| g_parameters := df_W ++ df_b ++ grad_fc;
            g_filtermaps := df_filtermaps;
            g_input_fc := Some df_input_fc;
            g_df_output := df_output |}
  | None =>
      Ok {| g_parameters := df_W ++ df_b;
            g_filtermaps := df_filtermaps;
            g_input_fc := None;
            g_df_output := df_output |}
  end.

End Layer.

Arguments fc_arg Tensor : clear implicits.
Arguments init_args Tensor : clear implicits.
Arguments t Tensor : clear implicits.
Arguments build Tensor : clear implicits.
Arguments cache Tensor : clear implicits.
Arguments gradients Tensor : clear implicits.
End MultiSequenceConvolutionLayer.

(** ** An executable instance of the GPU interface

    Arrays of rationals with exact arithmetic, to run the layers on
    concrete inputs.  The elementwise operations, the dropout mask and
    the column operations are what their names say.  The convolution and
    pooling kernels are stand-ins that only respect shapes: no statement
    of this development depends on what they compute. *)

Module QGpu.

Record arr : Type := { dims : list Z; data : list Q }.

Definition size (ds : list Z) : nat := Z.to_nat (foldr Z.mul 1 ds).

Definition fill (ds : list Z) (q : Q) : arr :=
  {| dims := ds; data := replicate (size ds) q |}.

Definition map1 (f : Q -> Q) (x : arr) : arr :=
  {| dims := dims x; data := map (fun q => Qred (f q)) (data x) |}.

Definition map2 (f : Q -> Q -> Q) (x y : arr) : arr :=
  {| dims := dims x;
     data := zip_with (fun p q => Qred (f p q)) (data x) (data y) |}.

Definition total (x : arr) : Q := Qred (foldr Qplus 0%Q (data x)).

Definition qsign (q : Q) : Q :=
  match Qcompare q 0 with
  | Lt => (-1)%Q
  | Eq => 0%Q
  | Gt => 1%Q
  end.

(** The rows of a matrix with [c] columns stored row by row. *)
Fixpoint rows (r c : nat) (l : list Q) : list (list Q) :=
  match r with
  | O => []
  | S r' => take c l :: rows r' c (drop c l)
  end.

Definition on_rows (x : arr) (width : Z) (f : list Q -> list Q) : arr :=
  match dims x with
  | [r; c] =>
      {| dims := [r; width];
         data := concat (map f (rows (Z.to_nat r) (Z.to_nat c) (data x))) |}
  | _ => x
  end.

(** Columns [first, last) of [x]. *)
Definition columns (x : arr) (first last : Z) : arr :=
  on_rows x (last - first)
          (fun row => take (Z.to_nat (last - first))
                           (drop (Z.to_nat first) row)).

(** [dest] with the columns of [src] written from column [first] on. *)
Definition with_columns (src dest : arr) (first : Z) : arr :=
  match dims src, dims dest with
  | [_; w], [r; c] =>
      let srows := rows (Z.to_nat r) (Z.to_nat w) (data src) in
      let drows := rows (Z.to_nat r) (Z.to_nat c) (data dest) in
      {| dims := [r; c];
         data := concat (zip_with
           (fun s d => take (Z.to_nat first) d ++ s
                       ++ drop (Z.to_nat (first + w)) d) srows drows) |}
  | _, _ => dest
  end.

(** The random generator: the numbers it will draw, in [0, 1). *)
Definition rng : Type := nat -> Q.

Definition draw (g : rng) (ds : list Z) : arr :=
  {| dims := ds; data := map g (seq 0 (size ds)) |}.

(** A mask entry is 1 (keep) or 0 (drop), each with probability 1/2. *)
Definition mask_of (g : rng) (x : arr) : arr :=
  {| dims := dims x;
     data := map (fun i => if Qlt_le_dec (g i) (1 # 2) then 0%Q else 1%Q)
                 (seq 0 (length (data x))) |}.

Definition pooled_width (width pool_size n_filters : Z) : Z :=
  match MaxPoolingLayer._compute_n_units width pool_size n_filters with
  | Ok u => u
  | Raise _ => 0
  end.

Definition batch (x : arr) : Z := hd 0 (dims x).

#[global] Instance ops : GpuOps arr rng := {|
  shape := dims;
  gpu_empty ds := fill ds 0%Q;
  gpu_zeros ds := fill ds 0%Q;
  curand g _ ds := draw g ds;
  tadd := map2 Qplus;
  tsub := map2 Qminus;
  tmul := map2 Qmult;
  smul c := map1 (Qmult c);
  ssub x c := map1 (fun q => q - c)%Q x;
  sign := map1 qsign;
  sample_dropout_mask := mask_of;
  apply_dropout_mask := map2 Qmult;
  extract_columns := columns;
  insert_columns := with_columns;
  convolve_sequence input W_ b_ :=
    fill [batch input; nth 1 (dims input) 0 / 4 * batch W_]
         (total input + total W_ + total b_)%Q;
  convolve_sequence_gradient input delta filter_width n_filters :=
    fill [n_filters; 4 * filter_width] (total input * total delta)%Q;
  sum_delta delta n_filters := fill [n_filters] (total delta);
  max_pool x pool_size n_filters :=
    let w := pooled_width (nth 1 (dims x) 0 / n_filters)
                          pool_size n_filters in
    (fill [batch x; w] (total x), fill [batch x; w] 0%Q);
  max_pool_into x pool_size n_filters width off target argmax :=
    let w := pooled_width width pool_size n_filters in
    (with_columns (fill [batch x; w] (total x)) target off, argmax);
  max_pool_gradient x argmax df_output pool_size n_filters :=
    fill (dims x) (total df_output);
  max_pool_gradient_at x argmax df_output pool_size n_filters
                       width_pooled off :=
    fill (dims x)
         (total (columns df_output off (off + width_pooled * n_filters)))
|}.

(** Two activation functions: the identity and the rectifier. *)
Definition relu (q : Q) : Q := if Qlt_le_dec 0 q then q else 0%Q.
Definition step (q : Q) : Q := if Qlt_le_dec 0 q then 1%Q else 0%Q.

#[global] Instance nets : NeuralNets arr := {|
  _resolve_activation_fct name :=
    if String.eqb name "linear" then
      Ok (fun x => x, fun x => fill (dims x) 1%Q)
    else if String.eqb name "relu" then Ok (map1 relu, map1 step)
    else Raise bare_ValueError;
  HiddenLayer_new keys := Raise TypeError
|}.

(** A fully-connected branch with [n] output units and two parameters
    that hands its input on. *)
Definition dense (n : Z) : HiddenLayer arr := {|
  fc_n_units := n;
  fc_dropout := false;
  fc_n_parameters := 2;
  fc_parameters := [fill [1; n] 0%Q; fill [n] 0%Q];
  fc_feed_forward input prediction := [columns input 0 n];
  fc_backprop input df_output cache_ :=
    ([fill [1; n] (total df_output); fill [n] (total df_output)], df_output)
|}.

End QGpu.

(** ** Vocabulary of the statements *)

Section Vocabulary.
Context {Tensor Rng : Type} `{!GpuOps Tensor Rng} `{!NeuralNets Tensor}.

(** The integer under a key, if there is one. *)
Definition int_at (d : dict Tensor) (k : string) : option Z :=
  match d !! k with
  | Some (VInt z) => Some z
  | _ => None
  end.

Definition units_of (d : dict Tensor) : Z := default 0 (int_at d "n_units").

(** The number of output columns of a list of regions. *)
Definition sum_units (ls : list (dict Tensor)) : Z :=
  foldr (fun d acc => units_of d + acc) 0 ls.

Definition is_master_region (d : dict Tensor) : bool :=
  match d !! "layer_type" with
  | Some v => is_master v
  | None => false
  end.

Definition is_slave_region (d : dict Tensor) : Prop :=
  d !! "layer_type" = Some (VStr "slave").

Definition masters_of (ls : list (dict Tensor)) : list (dict Tensor) :=
  List.filter is_master_region ls.

Definition n_masters (ls : list (dict Tensor)) : Z :=
  Z.of_nat (length (masters_of ls)).

(** Every [weight_share] entry designates a region declared earlier. *)
Definition backrefs (ls : list (dict Tensor)) : Prop :=
  forall j d w, ls !! j = Some d -> d !! "weight_share" = Some (VInt w) ->
    exists m, py_resolve (length ls) w = Ok m /\ (m < j)%nat.

(** No descriptor is handed to the constructor with a [param_idx] entry
    of its own: that key is the constructor's to fill. *)
Definition fresh (ls : list (dict Tensor)) : Prop :=
  forall j d, ls !! j = Some d -> d !! "param_idx" = None.

(** The input of the constructor that the statements on weight sharing
    are about. *)
Definition admissible (L0 : list (dict Tensor)) : Prop :=
  fresh L0 \/ backrefs L0.

(** The dictionary of a master region after lines 195-226, given the
    dictionary [d] after the defaults were replaced. *)
Definition master_fill (d : dict Tensor) (p : Z) (f df : Tensor -> Tensor)
    : dict Tensor :=
  setdefault "lr_multiplier" (VFloat 1)
    (setdefault "l2_penalty_weight" (VFloat 0)
      (setdefault "l1_penalty_weight" (VFloat 0)
        (<["df" := VFun df]> (<["f" := VFun f]>
          (<["param_idx" := VInt p]>
            (<["layer_type" := VStr "master"]> d)))))).

Definition copy_from (dm : dict Tensor) (k : string) (layer : dict Tensor)
    : dict Tensor :=
  match dm !! k with
  | Some v => <[k := v]> layer
  | None => layer
  end.

(** The dictionary of a slave region after lines 229-236, given the
    dictionary [dm] of the region it references. *)
Definition slave_fill (d dm : dict Tensor) : dict Tensor :=
  copy_from dm "df" (copy_from dm "f"
    (copy_from dm "activation_function" (copy_from dm "param_idx"
      (copy_from dm "filter_width" (copy_from dm "n_filters"
        (<["layer_type" := VStr "slave"]> d)))))).

(** Lines 238-241. *)
Definition finish (d : dict Tensor) (units offset : Z) : dict Tensor :=
  <["output_offset" := VInt offset]> (<["n_units" := VInt units]> d).

(** The keys a slave region copies from the region it references. *)
Definition copied_keys : list string :=
  ["n_filters"; "filter_width"; "param_idx"; "activation_function";
   "f"; "df"].

(** Region [d0] was filled as the master with parameter index [p]. *)
Definition filled_master (a : MultiSequenceConvolutionLayer.init_args Tensor)
    (p : Z) (d0 x : dict Tensor) : Prop :=
  let d1 := MultiSequenceConvolutionLayer.replace_defaults a d0 in
  d1 !! "weight_share" = None
  /\ exists f df name fw,
       x = master_fill d1 p f df
       /\ d1 !! "activation_function" = Some (VStr name)
       /\ _resolve_activation_fct name = Ok (f, df)
       /\ d1 !! "filter_width" = Some (VInt fw).

(** Region [d0], in a list of [n] regions, was filled as a slave of the
    region at position [m], whose dictionary is [dm]. *)
Definition filled_slave (a : MultiSequenceConvolutionLayer.init_args Tensor)
    (n : nat) (d0 : dict Tensor) (m : nat) (dm x : dict Tensor) : Prop :=
  let d1 := MultiSequenceConvolutionLayer.replace_defaults a d0 in
  exists w,
    d1 !! "weight_share" = Some (VInt w)
    /\ py_resolve n w = Ok m
    /\ x = slave_fill d1 dm
    /\ Forall (fun k => is_Some (dm !! k)) copied_keys.

(** The number of units that [_compute_n_units] gives for a region. *)
Definition units_computed (x : dict Tensor) (u : Z) : Prop :=
  exists n_in ps nf,
    x !! "n_in" = Some (VInt n_in)
    /\ x !! "pool_size" = Some (VInt ps)
    /\ x !! "n_filters" = Some (VInt nf)
    /\ MaxPoolingLayer._compute_n_units n_in ps nf = Ok u.

(** What the constructor has made of the region at position [j]: [L0] is
    the list it was given, [L] the list as it stands, [d] the region's
    dictionary in [L].  A slave was filled from some dictionary [dm]; for
    an admissible input [dm] is the dictionary of an earlier region. *)
Definition region_done (a : MultiSequenceConvolutionLayer.init_args Tensor)
    (L0 L : list (dict Tensor)) (j : nat) (d : dict Tensor) : Prop :=
  exists d0 x u,
    L0 !! j = Some d0
    /\ d = finish x u (sum_units (take j L))
    /\ units_computed x u
    /\ (filled_master a (n_masters (take j L)) d0 x
        \/ exists m dm,
             filled_slave a (length L) d0 m dm x
             /\ (admissible L0 -> (m < j)%nat /\ L !! m = Some dm)).

(** The invariant of the loop of [__init__] before the region at
    position [i] is treated. *)
Record ctor_inv (a : MultiSequenceConvolutionLayer.init_args Tensor)
    (L0 : list (dict Tensor)) (i : nat)
    (s : MultiSequenceConvolutionLayer.build Tensor) : Prop := {
  inv_length :
    length (MultiSequenceConvolutionLayer.regions s) = length L0;
  inv_rest : forall j, (i <= j)%nat ->
    MultiSequenceConvolutionLayer.regions s !! j = L0 !! j;
  inv_W : Z.of_nat (length (MultiSequenceConvolutionLayer.bW s))
          = MultiSequenceConvolutionLayer.param_idx s;
  inv_b : length (MultiSequenceConvolutionLayer.bb s)
          = length (MultiSequenceConvolutionLayer.bW s);
  inv_masters :
    MultiSequenceConvolutionLayer.param_idx s
    = n_masters (take i (MultiSequenceConvolutionLayer.regions s));
  inv_offset :
    MultiSequenceConvolutionLayer.output_offset s
    = sum_units (take i (MultiSequenceConvolutionLayer.regions s));
  inv_done : forall j d, (j < i)%nat ->
    MultiSequenceConvolutionLayer.regions s !! j = Some d ->
    region_done a L0 (MultiSequenceConvolutionLayer.regions s) j d
}.

(** The number of units of the fully-connected branch, 0 without one. *)
Definition fc_units (self : MultiSequenceConvolutionLayer.t Tensor) : Z :=
  match MultiSequenceConvolutionLayer.fully_connected_layer self with
  | Some h => fc_n_units h
  | None => 0
  end.

(** What [__init__] establishes. *)
Record constructed (a : MultiSequenceConvolutionLayer.init_args Tensor)
    (self : MultiSequenceConvolutionLayer.t Tensor) : Prop := {
  con_length :
    length (MultiSequenceConvolutionLayer.subregion_layers self)
    = length (MultiSequenceConvolutionLayer.arg_subregion_layers a);
  con_regions : forall j d,
    MultiSequenceConvolutionLayer.subregion_layers self !! j = Some d ->
    region_done a (MultiSequenceConvolutionLayer.arg_subregion_layers a)
                (MultiSequenceConvolutionLayer.subregion_layers self) j d;
  con_W :
    Z.of_nat (length (MultiSequenceConvolutionLayer.W self))
    = n_masters (MultiSequenceConvolutionLayer.subregion_layers self);
  con_b :
    length (MultiSequenceConvolutionLayer.b self)
    = length (MultiSequenceConvolutionLayer.W self);
  con_masters :
    MultiSequenceConvolutionLayer.master_layers self
    = masters_of (MultiSequenceConvolutionLayer.subregion_layers self);
  con_units :
    MultiSequenceConvolutionLayer.n_units self
    = sum_units (MultiSequenceConvolutionLayer.subregion_layers self)
      + fc_units self;
  con_offset :
    MultiSequenceConvolutionLayer.fc_layer_offset self
    = match MultiSequenceConvolutionLayer.fully_connected_layer self with
      | Some _ =>
          sum_units (MultiSequenceConvolutionLayer.subregion_layers self)
      | None => 0
      end;
  con_dropout :
    MultiSequenceConvolutionLayer.dropout self
    = MultiSequenceConvolutionLayer.arg_dropout a
}.



(** The keys for which [__init__] takes a layer-wide argument, and the
    argument for each. *)
Definition default_keys : list string :=
  ["n_filters"; "filter_width"; "pool_size"; "activation_function";
   "l1_penalty_weight"; "l2_penalty_weight"; "lr_multiplier"].

Definition layer_wide (a : MultiSequenceConvolutionLayer.init_args Tensor)
    (k : string) : option (value Tensor) :=
  if String.eqb k "n_filters" then
    VInt <$> MultiSequenceConvolutionLayer.arg_n_filters a
  else if String.eqb k "filter_width" then
    VInt <$> MultiSequenceConvolutionLayer.arg_filter_width a
  else if String.eqb k "pool_size" then
    VInt <$> MultiSequenceConvolutionLayer.arg_pool_size a
  else if String.eqb k "activation_function" then
    VStr <$> MultiSequenceConvolutionLayer.arg_activation_function a
  else if String.eqb k "l1_penalty_weight" then
    VFloat <$> MultiSequenceConvolutionLayer.arg_l1_penalty_weight a
  else if String.eqb k "l2_penalty_weight" then
    VFloat <$> MultiSequenceConvolutionLayer.arg_l2_penalty_weight a
  else if String.eqb k "lr_multiplier" then
    VFloat <$> MultiSequenceConvolutionLayer.arg_lr_multiplier a
  else None.

(** The constants of lines 221-226. *)
Definition hard_default (k : string) : option (value Tensor) :=
  if String.eqb k "l1_penalty_weight" then Some (VFloat 0)
  else if String.eqb k "l2_penalty_weight" then Some (VFloat 0)
  else if String.eqb k "lr_multiplier" then Some (VFloat 1)
  else None.

(** The reading of the defaults under which a value that a region
    supplies always survives construction. *)
Definition supplied_values_kept
    (a : MultiSequenceConvolutionLayer.init_args Tensor)
    (self : MultiSequenceConvolutionLayer.t Tensor) : Prop :=
  forall j d0 d k v,
    MultiSequenceConvolutionLayer.arg_subregion_layers a !! j = Some d0 ->
    MultiSequenceConvolutionLayer.subregion_layers self !! j = Some d ->
    k ∈ default_keys ->
    d0 !! k = Some v -> d !! k = Some v.

(** The keys that [backprop] and [feed_forward] read in a region. *)
Record keyed (d : dict Tensor) : Prop := {
  keyed_f : exists f, d !! "f" = Some (VFun f);
  keyed_df : exists df, d !! "df" = Some (VFun df);
  keyed_n_in : exists z, d !! "n_in" = Some (VInt z);
  keyed_pool_size : exists z, d !! "pool_size" = Some (VInt z);
  keyed_n_filters : exists z, d !! "n_filters" = Some (VInt z);
  keyed_filter_width : exists z, d !! "filter_width" = Some (VInt z);
  keyed_n_units : exists z, d !! "n_units" = Some (VInt z);
  keyed_output_offset : exists z, d !! "output_offset" = Some (VInt z);
  keyed_param_idx : exists z, d !! "param_idx" = Some (VInt z);
  keyed_layer_type :
    d !! "layer_type" = Some (VStr "master")
    \/ d !! "layer_type" = Some (VStr "slave")
}.

(** The regions that read the parameters at index [k], in declaration
    order, each with a gradient. *)
Definition aliasing (k : Z) (rgs : list (dict Tensor * Tensor))
    : list (dict Tensor * Tensor) :=
  List.filter (fun p => bool_decide (int_at p.1 "param_idx" = Some k)) rgs.

(** [x0 + x1 + ... + xn], added in this order onto [x0]. *)
Definition sum_in_order (xs : list Tensor) : option Tensor :=
  match xs with
  | [] => None
  | x :: xs' => Some (fold_left tadd xs' x)
  end.

(** The gradients of the regions taken one by one (lines 408-422), for
    the triples the first loop of [backprop] runs over: each region with
    its weight gradient, and each region with its bias gradient. *)
Definition standalone_W (argmax df_output : Tensor)
    (xs : list (Tensor * Tensor * dict Tensor))
    : list (dict Tensor * Tensor) :=
  omap (fun p =>
          match MultiSequenceConvolutionLayer.region_gradient
                  argmax df_output p.1.1 p.1.2 p.2 with
          | Ok g => Some (p.2, g.1.2)
          | Raise _ => None
          end) xs.

Definition standalone_b (argmax df_output : Tensor)
    (xs : list (Tensor * Tensor * dict Tensor))
    : list (dict Tensor * Tensor) :=
  omap (fun p =>
          match MultiSequenceConvolutionLayer.region_gradient
                  argmax df_output p.1.1 p.1.2 p.2 with
          | Ok g => Some (p.2, g.2)
          | Raise _ => None
          end) xs.

Definition standalone_filtermaps (argmax df_output : Tensor)
    (xs : list (Tensor * Tensor * dict Tensor)) : list Tensor :=
  omap (fun p =>
          match MultiSequenceConvolutionLayer.region_gradient
                  argmax df_output p.1.1 p.1.2 p.2 with
          | Ok g => Some g.1.1
          | Raise _ => None
          end) xs.

(** A master first, then slaves only. *)
Definition seeded (rs : list (dict Tensor * Tensor)) : Prop :=
  match rs with
  | [] => False
  | r :: rs' =>
      is_master_region r.1 = true
      /\ Forall (fun p => is_slave_region p.1) rs'
  end.

(** What lines 432-433 leave in [df_W_i] for the master [m]. *)
Definition l1_step (m : dict Tensor) (g : Tensor) : Tensor :=
  match m !! "l1_penalty_weight" with
  | Some v =>
      if truthy v then
        match as_num v with
        | Ok c => tsub g (smul c (sign g))
        | Raise _ => g
        end
      else g
  | None => g
  end.

(** [df_W] after the second loop of [backprop] when no step raises. *)
Fixpoint l1_steps (ms : list (dict Tensor)) (df_W : list Tensor)
    : list Tensor :=
  match df_W, ms with
  | g :: df_W', m :: ms' => l1_step m g :: l1_steps ms' df_W'
  | _, _ => df_W
  end.

(** The penalty weights of a master with which lines 432-435 do not
    raise: the L2 weight is false (zero), and the L1 weight is a number
    if it is true. *)
Definition penalty_returns (m : dict Tensor) : Prop :=
  (forall v, m !! "l2_penalty_weight" = Some v -> truthy v = false)
  /\ (forall v, m !! "l1_penalty_weight" = Some v -> truthy v = true ->
        exists c, as_num v = Ok c).

(** The cache that [backprop] works with: the one it is given, or the
    one [feed_forward] returns. *)
Definition cache_of (self : MultiSequenceConvolutionLayer.t Tensor)
    (input : list Tensor) (rng : Rng)
    (cache_ : option (MultiSequenceConvolutionLayer.cache Tensor))
    (c : MultiSequenceConvolutionLayer.cache Tensor) : Prop :=
  match cache_ with
  | Some c' => c' = c
  | None =>
      MultiSequenceConvolutionLayer.feed_forward self input false rng = Ok c
  end.

(** The conditions under which [backprop] returns: no region has zero
    filters, there is one input per region and one more for the
    fully-connected branch, the cache has one filter map per region, no
    penalty step raises, and [df_output] has a second dimension if the
    fully-connected branch needs it. *)
Record backprop_ready (self : MultiSequenceConvolutionLayer.t Tensor)
    (input : list Tensor) (c : MultiSequenceConvolutionLayer.cache Tensor)
    (df_output : Tensor) : Prop := {
  ready_filters : forall d,
    d ∈ MultiSequenceConvolutionLayer.subregion_layers self ->
    d !! "n_filters" <> Some (VInt 0);
  ready_input :
    length input
    = (length (MultiSequenceConvolutionLayer.subregion_layers self)
       + match MultiSequenceConvolutionLayer.fully_connected_layer self with
         | Some _ => 1
         | None => 0
         end)%nat;
  ready_filtermaps :
    length (MultiSequenceConvolutionLayer.c_filtermaps c)
    = length (MultiSequenceConvolutionLayer.subregion_layers self);
  ready_penalties : forall m,
    m ∈ masters_of (MultiSequenceConvolutionLayer.subregion_layers self) ->
    penalty_returns m;
  ready_columns :
    is_Some (MultiSequenceConvolutionLayer.fully_connected_layer self) ->
    exists ncols,
      MultiSequenceConvolutionLayer.shape_at
        (MultiSequenceConvolutionLayer.mask_df_output self c df_output) 1
      = Ok ncols
}.

(** Modelled from the spec: the shapes that the kernels keep, which the
    module imports and this repository's sources do not define.  The
    pooled buffer has shape [(batch, total_n_units)]; pooling and
    [insert_columns] write into an offset slice of that buffer; the
    dropout mask matches the shape of the pooled buffer. *)
Record shape_contracts : Prop := {
  shape_empty : forall ds, shape (gpu_empty ds) = ds;
  shape_max_pool_into : forall x ps nf w off target argmax,
    shape (max_pool_into x ps nf w off target argmax).1 = shape target;
  shape_insert_columns : forall src dest off,
    shape (insert_columns src dest off) = shape dest;
  shape_dropout_mask : forall g x, shape (sample_dropout_mask g x) = shape x
}.

(** The conditions under which [feed_forward] returns: every input
    array has [N] rows, there is one input per region and one more for
    the fully-connected branch, and that branch returns a tuple that is
    not empty. *)
Record feed_forward_ready (self : MultiSequenceConvolutionLayer.t Tensor)
    (input : list Tensor) (N : Z) : Prop := {
  ff_rows :
    Forall (fun x => MultiSequenceConvolutionLayer.shape_at x 0 = Ok N) input;
  ff_input :
    length input
    = (length (MultiSequenceConvolutionLayer.subregion_layers self)
       + match MultiSequenceConvolutionLayer.fully_connected_layer self with
         | Some _ => 1
         | None => 0
         end)%nat;
  ff_nonempty : input <> [];
  ff_fc : forall h x p,
    MultiSequenceConvolutionLayer.fully_connected_layer self = Some h ->
    fc_feed_forward h x p <> []
}.

(** What the claim on the penalties expects instead: the sign of the
    weights and the weights themselves. *)
Definition l1_l2_expected (l1 l2 : Q) (W_k g : Tensor) : Tensor :=
  let g := if Qlt_le_dec 0 l1 then tsub g (smul l1 (sign W_k)) else g in
  if Qlt_le_dec 0 l2 then tsub g (smul l2 W_k) else g.

(** A region that the first loop of [backprop] can treat after the
    regions [pre]: it holds the keys that are read, its number of filters
    is not 0, and its [param_idx] is the next free index for a master
    and an index in use for a slave. *)
Definition treatable (pre : list (dict Tensor)) (d : dict Tensor) : Prop :=
  keyed d
  /\ d !! "n_filters" <> Some (VInt 0)
  /\ exists p, d !! "param_idx" = Some (VInt p)
       /\ (is_master_region d = true -> p = n_masters pre)
       /\ (is_master_region d = false -> 0 <= p < n_masters pre).

(** The invariant of the first loop of [backprop] after the triples
    [pre]: [df_W] and [df_b] hold one entry per master met so far, and
    the entry at index [k] is the master's gradient with the gradients
    of the slaves at index [k] added in the order of declaration. *)
Definition accumulated (argmax df_output : Tensor)
    (pre : list (Tensor * Tensor * dict Tensor))
    (st : list Tensor * list Tensor * list Tensor) : Prop :=
  let rW := standalone_W argmax df_output pre in
  let rb := standalone_b argmax df_output pre in
  let n := n_masters (map snd pre) in
  length rW = length pre /\ length rb = length pre
  /\ Z.of_nat (length st.1.1) = n /\ Z.of_nat (length st.1.2) = n
  /\ st.2 = standalone_filtermaps argmax df_output pre
  /\ length st.2 = length pre
  /\ forall k : nat,
       ((Z.of_nat k < n ->
           seeded (aliasing (Z.of_nat k) rW)
           /\ seeded (aliasing (Z.of_nat k) rb)
           /\ st.1.1 !! k
              = sum_in_order (map snd (aliasing (Z.of_nat k) rW))
           /\ st.1.2 !! k
              = sum_in_order (map snd (aliasing (Z.of_nat k) rb)))
        /\ (n <= Z.of_nat k ->
              aliasing (Z.of_nat k) rW = []
              /\ aliasing (Z.of_nat k) rb = [])).

End Vocabulary.

(** ** Concrete layers

    Inputs on which the statements below are instantiated. *)

Module Examples.
Import QGpu.

(** A generator that alternates between 1/4 and 3/4. *)
Definition alternating : rng :=
  fun i => if Nat.even i then (1 # 4)%Q else (3 # 4)%Q.

(** [MaxPoolingLayer(10, 3, 4, dropout=True)] *)
Definition pool_layer : MaxPoolingLayer.t :=
  {| MaxPoolingLayer.n_in := 10;
     MaxPoolingLayer.pool_size := 3;
     MaxPoolingLayer.n_filters := 4;
     MaxPoolingLayer.l1_penalty_weight := 0%Q;
     MaxPoolingLayer.l2_penalty_weight := 0%Q;
     MaxPoolingLayer.dropout := true;
     MaxPoolingLayer.n_units := 16 |}.

Definition ones (ds : list Z) : arr := fill ds 1%Q.

(** [{'n_in': 10, 'n_filters': 1, 'filter_width': 1, 'pool_size': 3,
      'activation_function': 'linear'}] *)
Definition region_a : dict arr :=
  <["n_in" := VInt 10]> (<["n_filters" := VInt 1]>
    (<["filter_width" := VInt 1]> (<["pool_size" := VInt 3]>
      (<["activation_function" := VStr "linear"]> ∅)))).

(** [{'n_in': 6, 'pool_size': 2, 'weight_share': 0}] *)
Definition region_b : dict arr :=
  <["n_in" := VInt 6]> (<["pool_size" := VInt 2]>
    (<["weight_share" := VInt 0]> ∅)).

(** [MultiSequenceConvolutionLayer([region_a, region_b],
      fully_connected_layer=dense(2), dropout=True)] *)
Definition shared_args : MultiSequenceConvolutionLayer.init_args arr :=
  {| MultiSequenceConvolutionLayer.arg_subregion_layers :=
       [region_a; region_b];
     MultiSequenceConvolutionLayer.arg_fully_connected_layer :=
       MultiSequenceConvolutionLayer.FcLayer (dense 2);
     MultiSequenceConvolutionLayer.arg_n_filters := None;
     MultiSequenceConvolutionLayer.arg_filter_width := None;
     MultiSequenceConvolutionLayer.arg_pool_size := None;
     MultiSequenceConvolutionLayer.arg_activation_function := None;
     MultiSequenceConvolutionLayer.arg_dropout := Some true;
     MultiSequenceConvolutionLayer.arg_lr_multiplier := None;
     MultiSequenceConvolutionLayer.arg_l1_penalty_weight := None;
     MultiSequenceConvolutionLayer.arg_l2_penalty_weight := None;
     MultiSequenceConvolutionLayer.arg_weight_scale := (1 # 100)%Q |}.

(** [MultiSequenceConvolutionLayer([region_a], pool_size=5)] *)
Definition override_args : MultiSequenceConvolutionLayer.init_args arr :=
  {| MultiSequenceConvolutionLayer.arg_subregion_layers := [region_a];
     MultiSequenceConvolutionLayer.arg_fully_connected_layer :=
       MultiSequenceConvolutionLayer.FcNone;
     MultiSequenceConvolutionLayer.arg_n_filters := None;
     MultiSequenceConvolutionLayer.arg_filter_width := None;
     MultiSequenceConvolutionLayer.arg_pool_size := Some 5;
     MultiSequenceConvolutionLayer.arg_activation_function := None;
     MultiSequenceConvolutionLayer.arg_dropout := None;
     MultiSequenceConvolutionLayer.arg_lr_multiplier := None;
     MultiSequenceConvolutionLayer.arg_l1_penalty_weight := None;
     MultiSequenceConvolutionLayer.arg_l2_penalty_weight := None;
     MultiSequenceConvolutionLayer.arg_weight_scale := (1 # 100)%Q |}.

(** The object a constructor call returns; a failed call gives an empty
    layer. *)
Definition built (a : MultiSequenceConvolutionLayer.init_args arr)
    : MultiSequenceConvolutionLayer.t arr :=
  match MultiSequenceConvolutionLayer.__init__ a alternating with
  | Ok self => self
  | Raise _ =>
      {| MultiSequenceConvolutionLayer.subregion_layers := [];
         MultiSequenceConvolutionLayer.W := [];
         MultiSequenceConvolutionLayer.b := [];
         MultiSequenceConvolutionLayer.dropout := None;
         MultiSequenceConvolutionLayer.fully_connected_layer := None;
         MultiSequenceConvolutionLayer.n_units := 0;
         MultiSequenceConvolutionLayer.fc_layer_offset := 0;
         MultiSequenceConvolutionLayer.master_layers := [];
         MultiSequenceConvolutionLayer.l1_penalty_weight := false;
         MultiSequenceConvolutionLayer.l2_penalty_weight := false |}
  end.

Definition shared_layer : MultiSequenceConvolutionLayer.t arr :=
  Eval vm_compute in built shared_args.

(** [MultiSequenceConvolutionLayer([region_a], l1_penalty_weight=.5)] and
    [MultiSequenceConvolutionLayer([region_a], l2_penalty_weight=.5)] *)
Definition penalty_args (l1 l2 : option Q)
    : MultiSequenceConvolutionLayer.init_args arr :=
  {| MultiSequenceConvolutionLayer.arg_subregion_layers := [region_a];
     MultiSequenceConvolutionLayer.arg_fully_connected_layer :=
       MultiSequenceConvolutionLayer.FcNone;
     MultiSequenceConvolutionLayer.arg_n_filters := None;
     MultiSequenceConvolutionLayer.arg_filter_width := None;
     MultiSequenceConvolutionLayer.arg_pool_size := None;
     MultiSequenceConvolutionLayer.arg_activation_function := None;
     MultiSequenceConvolutionLayer.arg_dropout := None;
     MultiSequenceConvolutionLayer.arg_lr_multiplier := None;
     MultiSequenceConvolutionLayer.arg_l1_penalty_weight := l1;
     MultiSequenceConvolutionLayer.arg_l2_penalty_weight := l2;
     MultiSequenceConvolutionLayer.arg_weight_scale := (1 # 100)%Q |}.

Definition l1_layer : MultiSequenceConvolutionLayer.t arr :=
  Eval vm_compute in built (penalty_args (Some (1 # 2)%Q) None).

Definition l2_layer : MultiSequenceConvolutionLayer.t arr :=
  Eval vm_compute in built (penalty_args None (Some (1 # 2)%Q)).

(** The inputs of the layer with two regions and a fully-connected
    branch, and an output gradient of ones over its nine columns. *)
Definition shared_input : list arr :=
  [fill [1; 40] 1%Q; fill [1; 24] 2%Q; fill [1; 2] 5%Q].

Definition shared_df_output : arr := ones [1; 9].

(** [[region_b', region_a]] where [region_b'] shares the weights of the
    region declared after it. *)
Definition forward_args : MultiSequenceConvolutionLayer.init_args arr :=
  {| MultiSequenceConvolutionLayer.arg_subregion_layers :=
       [<["weight_share" := VInt 1]> region_b; region_a];
     MultiSequenceConvolutionLayer.arg_fully_connected_layer :=
       MultiSequenceConvolutionLayer.FcNone;
     MultiSequenceConvolutionLayer.arg_n_filters := None;
     MultiSequenceConvolutionLayer.arg_filter_width := None;
     MultiSequenceConvolutionLayer.arg_pool_size := None;
     MultiSequenceConvolutionLayer.arg_activation_function := None;
     MultiSequenceConvolutionLayer.arg_dropout := None;
     MultiSequenceConvolutionLayer.arg_lr_multiplier := None;
     MultiSequenceConvolutionLayer.arg_l1_penalty_weight := None;
     MultiSequenceConvolutionLayer.arg_l2_penalty_weight := None;
     MultiSequenceConvolutionLayer.arg_weight_scale := (1 # 100)%Q |}.

(** The cache that [feed_forward] returns on these inputs in training
    mode; a failed call gives an empty cache. *)
Definition shared_cache : MultiSequenceConvolutionLayer.cache arr :=
  Eval vm_compute in
    match MultiSequenceConvolutionLayer.feed_forward
            shared_layer shared_input false alternating with
    | Ok c => c
    | Raise _ =>
        {| MultiSequenceConvolutionLayer.c_activations_pooled := fill [] 0%Q;
           MultiSequenceConvolutionLayer.c_argmax := fill [] 0%Q;
           MultiSequenceConvolutionLayer.c_filtermaps := [];
           MultiSequenceConvolutionLayer.c_dropout_mask := None;
           MultiSequenceConvolutionLayer.c_activations_fc := None |}
    end.

Definition override_layer : MultiSequenceConvolutionLayer.t arr :=
  Eval vm_compute in built override_args.

End Examples.

(** ** The rest of the module

    The other classes and methods of [models.py], on top of the
    definitions above. *)

(** [l[:i]] and [l[i:]]: a negative bound counts from the end, and both
    are clipped to the list. *)
Definition py_slice_bound (len : nat) (i : Z) : nat :=
  if decide (i < 0) then Z.to_nat (Z.max 0 (i + Z.of_nat len))
  else Z.to_nat (Z.min i (Z.of_nat len)).

Definition py_slice_to {A : Type} (l : list A) (i : Z) : list A :=
  take (py_slice_bound (length l) i) l.

Definition py_slice_from {A : Type} (l : list A) (i : Z) : list A :=
  drop (py_slice_bound (length l) i) l.

(** What the module uses of [pycuda] and of [HiddenLayer] besides the
    interfaces above. *)
Class GpuUpdate (Tensor : Type) : Type := {
  (** [x._axpbyz(selffac, other, otherfac, out)] with [out] being [x]:
      the new contents of [x], [selffac * x + otherfac * other] *)
  axpbyz : Tensor -> Q -> Tensor -> Q -> Tensor
}.

Class HiddenLayerMethods (Tensor : Type) : Type := {
  (** [self._set_activation_fct(name)] binds [self.f] and [self.df] *)
  _set_activation_fct :
    string -> result ((Tensor -> Tensor) * (Tensor -> Tensor));
  (** [layer.parameters = value] on a [HiddenLayer] *)
  fc_set_parameters : HiddenLayer Tensor -> list Tensor -> HiddenLayer Tensor;
  (** [layer.update_parameters(values)] on a [HiddenLayer] *)
  fc_update_parameters :
    HiddenLayer Tensor -> list (Tensor * Q) -> HiddenLayer Tensor
}.

(** *** SequenceConvolutionLayer *)

Module SequenceConvolutionLayer.

(** The class attribute [n_parameters]. *)
Definition n_parameters : Z := 2.

Section Layer.
Context {Tensor Rng : Type} `{!GpuOps Tensor Rng}
        `{!HiddenLayerMethods Tensor}.

Record t : Type := {
  W : Tensor;
  b : Tensor;
  n_in : Z;
  filter_width : Z;
  n_filters : Z;
  n_units : Z;
  f : Tensor -> Tensor;
  df : Tensor -> Tensor;
  l1_penalty_weight : Q;
  l2_penalty_weight : Q;
  lr_multiplier : list Q
}.

(** [__init__]; [W = None] and [b = None] are Python's [None]. *)
Definition __init__ (n_in filter_width n_filters : Z)
    (activation_function : string) (weights_scale : Q)
    (W b : option Tensor) (l1_penalty_weight l2_penalty_weight : Q)
    (rng : Rng) : result t :=
  let W :=
    match W with
    | None =>
        ssub (smul weights_scale
                   (curand rng 0 [n_filters; 4 * filter_width]))
             ((1 # 2) * weights_scale)%Q
    | Some W => W
    end in
  let b :=
    match b with
    | None => gpu_zeros [n_filters]
    | Some b => b
    end in
  _ ← py_assert (bool_decide (shape W = [n_filters; 4 * filter_width]));
  _ ← py_assert (bool_decide (shape b = [n_filters]));
  '(f, df) ← _set_activation_fct activation_function;
  Ok {| W := W; b := b; n_in := n_in; filter_width := filter_width;
        n_filters := n_filters; n_units := n_filters * n_in;
        f := f; df := df;
        l1_penalty_weight := l1_penalty_weight;
        l2_penalty_weight := l2_penalty_weight;
        lr_multiplier := [1; 1]%Q |}.

(** [feed_forward]; the result is the returned tuple. *)
Definition feed_forward (self : t) (input : Tensor) (prediction : bool)
    : list Tensor :=
  let activations := convolve_sequence input (W self) (b self) in
  [f self activations].

(** [if w:] for a float. *)
Definition nonzero (w : Q) : bool := negb (Qeq_bool w 0).

(** [backprop]; the result is [((df_W, df_b), None)]. *)
Definition backprop (self : t) (input df_output : Tensor)
    (cache : option (list Tensor)) : result (Tensor * Tensor) :=
  activations ←
    match cache with
    | None => py_index (feed_forward self input false) 0
    | Some c => py_index c 0
    end;
  let df_activations := df self activations in
  let delta := tmul df_activations df_output in
  let df_b := sum_delta delta (n_filters self) in
  let df_W :=
    convolve_sequence_gradient input delta
                               (filter_width self) (n_filters self) in
  let df_W :=
    if nonzero (l1_penalty_weight self) then
      tsub df_W (smul (l1_penalty_weight self) (sign (W self)))
    else df_W in
  let df_W :=
    if nonzero (l2_penalty_weight self) then
      tsub df_W (smul (l2_penalty_weight self) (W self))
    else df_W in
  Ok (df_W, df_b).

End Layer.

Arguments t Tensor : clear implicits.

End SequenceConvolutionLayer.

(** *** The properties and the parameter update of
        MultiSequenceConvolutionLayer *)

Module MultiSequenceConvolutionLayerProperties.

Section Properties.
Context {Tensor Rng : Type} `{!GpuOps Tensor Rng} `{!NeuralNets Tensor}
        `{!GpuUpdate Tensor} `{!HiddenLayerMethods Tensor}.
Import MultiSequenceConvolutionLayer.

(** [sum(l['n_in'] for l in ls)] *)
Fixpoint sum_n_in (ls : list (dict Tensor)) (acc : Z) : result Z :=
  match ls with
  | [] => Ok acc
  | l :: ls' => n ← get_int l "n_in"; sum_n_in ls' (acc + n)
  end.

(** The property [n_in]. *)
Definition n_in (self : t Tensor) : result Z :=
  sum_n_in (subregion_layers self) 0.

(** [[l.get('lr_multiplier', 1.) for l in ls
      if l['layer_type'] == 'master']] *)
Fixpoint master_multipliers (ls : list (dict Tensor))
    : result (list (value Tensor)) :=
  match ls with
  | [] => Ok []
  | l :: ls' =>
      kind ← getitem l "layer_type";
      let here :=
        if is_master kind then
          [match l !! "lr_multiplier" with
           | Some v => v
           | None => VFloat 1
           end]
        else [] in
      rest ← master_multipliers ls';
      Ok (here ++ rest)
  end.

(** The property [lr_multiplier]: the list, twice. *)
Definition lr_multiplier (self : t Tensor) : result (list (value Tensor)) :=
  ms ← master_multipliers (subregion_layers self);
  Ok (ms ++ ms).

(** The setter of the property [parameters]. *)
Definition set_parameters (self : t Tensor) (value : list Tensor)
    : result (t Tensor) :=
  _ ← py_assert (bool_decide (Z.of_nat (length value) = n_parameters self));
  let '(conv_params, fc) :=
    match fully_connected_layer self with
    | None => (value, None)
    | Some h =>
        let n_param := n_parameters self in
        let n_param_fc := fc_n_parameters h in
        let conv_params := py_slice_to value (n_param - n_param_fc) in
        let fc_params := py_slice_from value (n_param - n_param_fc) in
        (conv_params, Some (fc_set_parameters h fc_params))
    end in
  let W_ := py_slice_to conv_params (Z.of_nat (length (W self))) in
  let b_ := py_slice_from conv_params (Z.of_nat (length W_)) in
  Ok {| subregion_layers := subregion_layers self;
        W := W_;
        b := b_;
        dropout := dropout self;
        fully_connected_layer := fc;
        n_units := n_units self;
        fc_layer_offset := fc_layer_offset self;
        master_layers := master_layers self;
        l1_penalty_weight := l1_penalty_weight self;
        l2_penalty_weight := l2_penalty_weight self |}.

(** [for (param, (gparam, mult)) in izip(params, conv_params):
      param._axpbyz(1., gparam, mult, param)]: the arrays met by the
    loop are updated in place, the others are left alone. *)
Fixpoint update_each (params : list Tensor) (conv_params : list (Tensor * Q))
    : list Tensor :=
  match params, conv_params with
  | param :: params', (gparam, mult) :: conv_params' =>
      axpbyz param 1 gparam mult :: update_each params' conv_params'
  | _, _ => params
  end.

(** [update_parameters]; each value is a pair [(gparam, mult)]. *)
Definition update_parameters (self : t Tensor) (values : list (Tensor * Q))
    : result (t Tensor) :=
  _ ← py_assert (bool_decide (Z.of_nat (length values) = n_parameters self));
  let '(conv_params, fc) :=
    match fully_connected_layer self with
    | None => (values, None)
    | Some h =>
        let conv_params := py_slice_to values (-2) in
        let fc_params := py_slice_from values (-2) in
        (conv_params, Some (fc_update_parameters h fc_params))
    end in
  let updated := update_each (W self ++ b self) conv_params in
  Ok {| subregion_layers := subregion_layers self;
        W := take (length (W self)) updated;
        b := drop (length (W self)) updated;
        dropout := dropout self;
        fully_connected_layer := fc;
        n_units := n_units self;
        fc_layer_offset := fc_layer_offset self;
        master_layers := master_layers self;
        l1_penalty_weight := l1_penalty_weight self;
        l2_penalty_weight := l2_penalty_weight self |}.

End Properties.

End MultiSequenceConvolutionLayerProperties.

(** *** SequenceConvolutionNet *)

Module SequenceConvolutionNet.

(** A penalty weight: a scalar, or a sequence with one weight for the
    convolution layer followed by those of the other layers. *)
Inductive penalty : Type :=
  | Scalar (w : Q)
  | Sequence (ws : list Q).

(** Lines 457-469: the weight of the convolution layer and what goes to
    [NeuralNet.__init__]. *)
Definition split_penalty (p : penalty) : result (Q * penalty) :=
  match p with
  | Scalar w => Ok (w, Scalar w)
  | Sequence ws =>
      conv ← py_index ws 0;
      Ok (conv, Sequence (py_slice_from ws 1))
  end.

Section Net.
Context {Tensor Rng : Type} `{!GpuOps Tensor Rng}
        `{!HiddenLayerMethods Tensor}.
(** [Layer] is a layer of [layers], [Net] what [NeuralNet.__init__]
    sets up. *)
Context {Layer Net : Type}.

Inductive hidden_layer : Type :=
  | Conv (l : SequenceConvolutionLayer.t Tensor)
  | Pool (l : MaxPoolingLayer.t)
  | Other (l : Layer).

(** [NeuralNet.__init__(layers=, activation_function=, dropout=,
    l1_penalty_weight=, l2_penalty_weight=, n_in=, n_out=)] *)
Context (NeuralNet_init :
  list hidden_layer -> string -> bool -> penalty -> penalty -> Z -> Z ->
  result Net).

Record t : Type := {
  base : Net;
  hidden_layers : list hidden_layer;
  n_layers : Z;
  n_in : Z;
  n_in_nn : Z;
  filter_width : Z;
  n_filters : Z;
  pool_size : Z
}.

(** [__init__]; [hidden_layers] is the list handed to
    [NeuralNet.__init__]. *)
Definition __init__ (n_in n_out filter_width n_filters pool_size : Z)
    (layers : list Layer) (activation_function : string) (dropout : bool)
    (l1_penalty_weight l2_penalty_weight : penalty) (rng : Rng)
    : result t :=
  '(l1_conv, l1_nn) ← split_penalty l1_penalty_weight;
  '(l2_conv, l2_nn) ← split_penalty l2_penalty_weight;
  n_in_nn ← py_int_div (n_filters * n_in) pool_size;
  conv_layer ←
    SequenceConvolutionLayer.__init__ n_in filter_width n_filters
      activation_function (1 # 100) None None l1_conv l2_conv rng;
  width ← py_int_div (SequenceConvolutionLayer.n_units conv_layer) n_filters;
  max_pool_layer ←
    MaxPoolingLayer.__init__ width pool_size n_filters dropout 0 0;
  let hidden_layers :=
    [Conv conv_layer; Pool max_pool_layer] ++ map Other layers in
  base ← NeuralNet_init hidden_layers activation_function dropout
                        l1_nn l2_nn n_in n_out;
  Ok {| base := base;
        hidden_layers := hidden_layers;
        n_layers := Z.of_nat (length layers) + 2;
        n_in := n_in;
        n_in_nn := n_in_nn;
        filter_width := filter_width;
        n_filters := n_filters;
        pool_size := pool_size |}.

End Net.

Arguments hidden_layer Tensor Layer : clear implicits.
Arguments t Tensor Layer Net : clear implicits.

End SequenceConvolutionNet.

(** *** The executable instance, continued *)

Module QGpuMore.
Import QGpu.

#[global] Instance update : GpuUpdate arr := {|
  axpbyz x selffac other otherfac :=
    map2 (fun p q => selffac * p + otherfac * q)%Q x other
|}.

#[global] Instance methods : HiddenLayerMethods arr := {|
  _set_activation_fct := _resolve_activation_fct;
  fc_set_parameters h value := {|
    fc_n_units := fc_n_units h;
    fc_dropout := fc_dropout h;
    fc_n_parameters := fc_n_parameters h;
    fc_parameters := value;
    fc_feed_forward := fc_feed_forward h;
    fc_backprop := fc_backprop h |};
  fc_update_parameters h values := {|
    fc_n_units := fc_n_units h;
    fc_dropout := fc_dropout h;
    fc_n_parameters := fc_n_parameters h;
    fc_parameters :=
      MultiSequenceConvolutionLayerProperties.update_each
        (fc_parameters h) values;
    fc_feed_forward := fc_feed_forward h;
    fc_backprop := fc_backprop h |}
|}.

End QGpuMore.

(** * Properties *)

(** ** The error monad *)

Lemma bind_Ok {A B : Type} (m : result A) (f : A -> result B) (y : B) :
  m ≫= f = Ok y -> exists x, m = Ok x /\ f x = Ok y.
Proof. destruct m as [x|e]; [eauto | discriminate]. Qed.

Lemma bind_Raise {A B : Type} (m : result A) (f : A -> result B) (e : exn) :
  m ≫= f = Raise e -> m = Raise e \/ exists x, m = Ok x /\ f x = Raise e.
Proof.
  destruct m as [x|e']; intros E; [right; eauto | left].
  injection E as ->. reflexivity.
Qed.

(** ** Ceiling division *)





(** ** MaxPoolingLayer *)

Section MaxPoolingLayerFacts.
Import MaxPoolingLayer.



(** C9.  Whatever penalty weights are passed to [__init__], the object
    it builds has both attributes equal to 0, the properties
    [l1_penalty] and [l2_penalty] return 0, and the object is the one
    built from zero weights.  Construction fails only on a zero pool
    size. *)
Theorem init_discards_penalty_weights
    (n_in pool_size n_filters : Z) (d : bool) (l1 l2 : Q) :
  __init__ n_in pool_size n_filters d l1 l2
    = __init__ n_in pool_size n_filters d 0%Q 0%Q
  /\ match __init__ n_in pool_size n_filters d l1 l2 with
     | Ok self =>
         l1_penalty_weight self = 0%Q /\ l2_penalty_weight self = 0%Q
         /\ l1_penalty self = 0%Q /\ l2_penalty self = 0%Q
     | Raise e => e = ZeroDivisionError /\ pool_size = 0
     end.
Proof.
  split; [reflexivity|].
  unfold __init__, _compute_n_units, py_ceil_fdiv.
  destruct (decide (pool_size = 0)); simpl; auto.
Qed.

Context {Tensor Rng : Type} `{!GpuOps Tensor Rng}.

Lemma unpack_cache_Ok (cache : list (pyobj Tensor)) :
  length cache = 2%nat \/ length cache = 3%nat ->
  exists lv, unpack_cache cache = Ok lv.
Proof.
  destruct cache as [|a [|g [|m [|x cache]]]]; simpl; intros [?|?];
    try discriminate; eauto.
Qed.

Lemma unpack_cache_Raise (cache : list (pyobj Tensor)) :
  length cache <> 2%nat -> length cache <> 3%nat ->
  unpack_cache cache = Raise bare_ValueError.
Proof.
  destruct cache as [|a [|g [|m [|x cache]]]]; simpl; intros; done.
Qed.

Lemma length_feed_forward (self : t) (input : Tensor) (p : bool) (rng : Rng) :
  length (feed_forward self input p rng)
    = (if dropout self && negb p then 3 else 2)%nat.
Proof.
  unfold feed_forward. destruct (max_pool _ _ _) as [a g].
  by destruct (dropout self && negb p).
Qed.

(** After the cache is unpacked, no statement of [backprop] raises a
    [ValueError] without a message. *)
Lemma backprop_tail_not_bare (self : t) (input df_output : Tensor)
    (cache : list (pyobj Tensor)) (rng : Rng) (lv : locals Tensor) :
  unpack_cache cache = Ok lv ->
  backprop self input df_output (Some cache) rng <> Raise bare_ValueError.
Proof.
  intros E. unfold backprop. rewrite E. simpl.
  unfold mask_df_output.
  destruct (dropout self); [destruct (lv_dropout_mask lv) as [[|m]|]|];
    simpl; try discriminate;
    (destruct (lv_activations lv) as [|x]; simpl; [discriminate|];
     unfold unpack_shape2;
     destruct (shape x) as [|n [|fm [|? ?]]]; simpl; try discriminate;
     unfold py_int_div; destruct (decide (n_filters self = 0)); simpl;
       [discriminate|];
     unfold check_reshape; case_decide; simpl; [|discriminate];
     destruct (lv_argmax lv); simpl; discriminate).
Qed.

(** C8.  A cache that is not [None] and whose length is neither 2 nor 3
    makes [backprop] raise the bare [ValueError] of line 139.  For a
    cache of length 2 or 3 the unpacking succeeds and that error is not
    raised, and the tuple [feed_forward] returns always has length 2 or
    3. *)
Theorem backprop_cache_arity (self : t) (input df_output : Tensor)
    (cache : list (pyobj Tensor)) (rng : Rng) :
  (length cache <> 2%nat /\ length cache <> 3%nat ->
     backprop self input df_output (Some cache) rng = Raise bare_ValueError)
  /\ (length cache = 2%nat \/ length cache = 3%nat ->
        (exists lv, unpack_cache cache = Ok lv)
        /\ backprop self input df_output (Some cache) rng
             <> Raise bare_ValueError)
  /\ (forall p, exists lv,
        unpack_cache (feed_forward self input p rng) = Ok lv).
Proof.
  repeat split.
  - intros [H2 H3]. unfold backprop.
    by rewrite (unpack_cache_Raise cache H2 H3).
  - by apply unpack_cache_Ok.
  - destruct (unpack_cache_Ok cache H) as [lv E].
    by apply (backprop_tail_not_bare _ _ _ _ _ lv).
  - intros p. apply unpack_cache_Ok. rewrite length_feed_forward.
    destruct (dropout self && negb p); auto.
Qed.

(** C10.  In a layer with [dropout = True], [backprop] on any cache of
    two elements, and so on the cache that [feed_forward] returns in
    prediction mode, reads the unbound name [dropout_mask] and fails with
    [UnboundLocalError]; it does not complete and it does not raise
    [ValueError]. *)
Theorem backprop_unbound_dropout_mask (self : t) (input df_output : Tensor)
    (activations argmax : pyobj Tensor) (rng : Rng) :
  dropout self = true ->
  backprop self input df_output (Some [activations; argmax]) rng
    = Raise (UnboundLocalError "dropout_mask")
  /\ length (feed_forward self input true rng) = 2%nat
  /\ backprop self input df_output
              (Some (feed_forward self input true rng)) rng
       = Raise (UnboundLocalError "dropout_mask").
Proof.
  intros Hd.
  assert (E : forall a g, backprop self input df_output (Some [a; g]) rng
                = Raise (UnboundLocalError "dropout_mask")).
  { intros a g. unfold backprop, mask_df_output. simpl. by rewrite Hd. }
  split; [apply E|].
  pose proof (length_feed_forward self input true rng) as L.
  rewrite andb_false_r in L. split; [done|].
  destruct (feed_forward self input true rng) as [|a [|g [|? ?]]];
    try discriminate. apply E.
Qed.

End MaxPoolingLayerFacts.

Lemma backprop_cache_arity_witness :
  (length [MaxPoolingLayer.PyNone (Tensor := QGpu.arr)] <> 2%nat
   /\ length [MaxPoolingLayer.PyNone (Tensor := QGpu.arr)] <> 3%nat)
  /\ MaxPoolingLayer.backprop Examples.pool_layer
       (Examples.ones [1; 40]) (Examples.ones [1; 16])
       (Some [MaxPoolingLayer.PyNone]) Examples.alternating
     = Raise bare_ValueError.
Proof.
  assert (H : length [MaxPoolingLayer.PyNone (Tensor := QGpu.arr)] <> 2%nat
              /\ length [MaxPoolingLayer.PyNone (Tensor := QGpu.arr)]
                 <> 3%nat).
  { split; simpl; lia. }
  split; [exact H|].
  exact (proj1 (backprop_cache_arity Examples.pool_layer
                  (Examples.ones [1; 40]) (Examples.ones [1; 16])
                  [MaxPoolingLayer.PyNone] Examples.alternating) H).
Defined.

Lemma backprop_unbound_dropout_mask_witness :
  MaxPoolingLayer.dropout Examples.pool_layer = true
  /\ MaxPoolingLayer.backprop Examples.pool_layer
       (Examples.ones [1; 40]) (Examples.ones [1; 16])
       (Some (MaxPoolingLayer.feed_forward Examples.pool_layer
                (Examples.ones [1; 40]) true Examples.alternating))
       Examples.alternating
     = Raise (UnboundLocalError "dropout_mask").
Proof.
  split; [reflexivity|].
  apply (backprop_unbound_dropout_mask Examples.pool_layer
           (Examples.ones [1; 40]) (Examples.ones [1; 16])
           MaxPoolingLayer.PyNone MaxPoolingLayer.PyNone
           Examples.alternating).
  reflexivity.
Defined.

(** ** MultiSequenceConvolutionLayer: the constructor *)

Tactic Notation "inv_bind" hyp(H) "as" simple_intropattern(p) simple_intropattern(E) :=
  apply bind_Ok in H; destruct H as (p & E & H).

Section Dicts.
Context {Tensor : Type}.
Implicit Types (d : dict Tensor) (k : string) (v : value Tensor).

Lemma getitem_Ok d k v : getitem d k = Ok v <-> d !! k = Some v.
Proof. unfold getitem. destruct (d !! k); split; congruence. Qed.

Lemma get_int_Ok d k z : get_int d k = Ok z <-> d !! k = Some (VInt z).
Proof.
  unfold get_int, getitem. destruct (d !! k) as [[]|]; simpl; split;
    congruence.
Qed.

Lemma get_fun_Ok d k f : get_fun d k = Ok f <-> d !! k = Some (VFun f).
Proof.
  unfold get_fun, getitem. destruct (d !! k) as [[]|]; simpl; split;
    congruence.
Qed.

Lemma getitem_insert_ne d k k' v :
  k <> k' -> getitem (<[k := v]> d) k' = getitem d k'.
Proof. intros. unfold getitem. by rewrite lookup_insert_ne. Qed.

Lemma get_int_insert_ne d k k' v :
  k <> k' -> get_int (<[k := v]> d) k' = get_int d k'.
Proof. intros. unfold get_int. by rewrite getitem_insert_ne. Qed.

Lemma has_key_insert_ne d k k' v :
  k <> k' -> has_key (<[k := v]> d) k' = has_key d k'.
Proof. intros. unfold has_key. by rewrite lookup_insert_ne. Qed.

Lemma lookup_setdefault d k k' v :
  setdefault k v d !! k' =
    if decide (k = k') then Some (default v (d !! k)) else d !! k'.
Proof.
  unfold setdefault, has_key. case_decide as E.
  - subst k'. destruct (d !! k) eqn:L; simpl; [done|].
    by rewrite lookup_insert_eq.
  - destruct (d !! k); [done|]. by rewrite lookup_insert_ne.
Qed.

Lemma lookup_replace_default d k k' (x : option (value Tensor)) :
  replace_default k x d !! k' =
    if decide (k = k') then from_option Some (d !! k) x else d !! k'.
Proof.
  unfold replace_default. destruct x as [v|]; simpl.
  - rewrite lookup_insert. by case_decide.
  - by case_decide; subst.
Qed.

Lemma lookup_copy_from (dm : dict Tensor) d k k' :
  copy_from dm k d !! k' =
    if decide (k = k') then from_option Some (d !! k) (dm !! k)
    else d !! k'.
Proof.
  unfold copy_from. destruct (dm !! k) as [v|]; simpl.
  - rewrite lookup_insert. by case_decide.
  - by case_decide; subst.
Qed.

End Dicts.

(** Lookups in the dictionaries that the constructor builds. *)
Ltac dict_lookup :=
  unfold finish, master_fill, slave_fill;
  repeat (rewrite lookup_setdefault || rewrite lookup_copy_from
          || rewrite lookup_insert);
  repeat case_decide; try done.

Section Constructor.
Context {Tensor Rng : Type} `{!GpuOps Tensor Rng} `{!NeuralNets Tensor}.
Import MultiSequenceConvolutionLayer.
Implicit Types (d layer : dict Tensor) (s : build Tensor).

Lemma init_master_Ok a rng layer s layer' s' :
  init_master a rng layer s = Ok (layer', s') ->
  exists W_ b_ f df name fw,
    layer' = master_fill layer (param_idx s) f df
    /\ s' = {| regions := regions s; bW := bW s ++ [W_]; bb := bb s ++ [b_];
               output_offset := output_offset s;
               param_idx := param_idx s + 1 |}
    /\ layer !! "activation_function" = Some (VStr name)
    /\ _resolve_activation_fct name = Ok (f, df)
    /\ layer !! "filter_width" = Some (VInt fw).
Proof.
  unfold init_master. intros H.
  inv_bind H as W_ EW. inv_bind H as nf Enf. inv_bind H as fw Efw.
  inv_bind H as [] _. inv_bind H as b_ Eb. inv_bind H as nf' Enf'.
  inv_bind H as [] _. inv_bind H as name En. inv_bind H as [f df] Er.
  injection H as <- <-.
  exists W_, b_, f, df, name, fw. repeat split; try done.
  - inv_bind En as v Ev. apply getitem_Ok in Ev.
    rewrite !lookup_insert_ne in Ev by done.
    destruct v; try discriminate. by injection En as ->.
  - apply get_int_Ok in Efw. by rewrite lookup_insert_ne in Efw.
Qed.

Lemma py_index_Ok {A : Type} (l : list A) (w : Z) (x : A) :
  py_index l w = Ok x <->
  exists m, py_resolve (length l) w = Ok m /\ l !! m = Some x.
Proof.
  unfold py_index. destruct (py_resolve (length l) w) as [m|e]; simpl.
  - destruct (l !! m) as [y|] eqn:E; split.
    + intros [= ->]. eauto.
    + intros (m' & [= <-] & H). congruence.
    + discriminate.
    + intros (m' & [= <-] & H). congruence.
  - split; [discriminate|]. by intros (m & ? & _).
Qed.

Lemma py_resolve_lt (n : nat) (w : Z) (m : nat) :
  py_resolve n w = Ok m -> (m < n)%nat.
Proof.
  unfold py_resolve. case_decide; [|discriminate]. intros [= <-].
  case_decide; lia.
Qed.

Lemma copy_key_Ok k (dm layer layer' : dict Tensor) :
  copy_key k dm layer = Ok layer' ->
  is_Some (dm !! k) /\ layer' = copy_from dm k layer.
Proof.
  unfold copy_key, copy_from, getitem.
  destruct (dm !! k) as [v|]; simpl; [|discriminate].
  intros [= <-]. eauto.
Qed.

Lemma init_slave_Ok layer i others layer' :
  init_slave layer i others = Ok layer' ->
  exists w m dm,
    layer !! "weight_share" = Some (VInt w)
    /\ py_resolve (length others) w = Ok m
    /\ <[i := <["layer_type" := VStr "slave"]> layer]> others !! m = Some dm
    /\ layer' = slave_fill layer dm
    /\ Forall (fun k => is_Some (dm !! k)) copied_keys.
Proof.
  unfold init_slave. intros H.
  inv_bind H as w Ew. inv_bind H as dm Em.
  inv_bind H as l1 E1. inv_bind H as l2 E2. inv_bind H as l3 E3.
  inv_bind H as l4 E4. inv_bind H as l5 E5.
  apply get_int_Ok in Ew. rewrite lookup_insert_ne in Ew by done.
  apply py_index_Ok in Em as (m & Er & Em). rewrite length_insert in Er.
  apply copy_key_Ok in E1 as [S1 ->], E2 as [S2 ->], E3 as [S3 ->],
    E4 as [S4 ->], E5 as [S5 ->], H as [S6 ->].
  exists w, m, dm. repeat split; try done.
  unfold copied_keys. by repeat constructor.
Qed.

Lemma weight_share_replace_defaults a d :
  replace_defaults a d !! "weight_share" = d !! "weight_share".
Proof.
  unfold replace_defaults. rewrite !lookup_replace_default.
  by repeat case_decide.
Qed.

Lemma init_region_Ok a rng i s s' :
  init_region a rng i s = Ok s' ->
  exists d0 x u,
    regions s !! i = Some d0
    /\ units_computed x u
    /\ regions s' = <[i := finish x u (output_offset s)]> (regions s)
    /\ output_offset s' = output_offset s + u
    /\ ((filled_master a (param_idx s) d0 x
         /\ param_idx s' = param_idx s + 1
         /\ exists W_ b_, bW s' = bW s ++ [W_] /\ bb s' = bb s ++ [b_])
        \/ (exists m dm,
              <[i := <["layer_type" := VStr "slave"]>
                       (replace_defaults a d0)]> (regions s) !! m = Some dm
              /\ filled_slave a (length (regions s)) d0 m dm x)
           /\ param_idx s' = param_idx s
           /\ bW s' = bW s /\ bb s' = bb s).
Proof.
  unfold init_region. intros H.
  destruct (regions s !! i) as [d0|] eqn:Ed; [|discriminate].
  inv_bind H as v _. inv_bind H as [x s1] Ex.
  inv_bind H as n_in En. inv_bind H as ps Ep. inv_bind H as nf Ef.
  inv_bind H as u Eu. injection H as <-. simpl.
  apply get_int_Ok in En, Ep, Ef.
  assert (U : units_computed x u) by (exists n_in, ps, nf; done).
  unfold has_key in Ex.
  destruct (replace_defaults a d0 !! "weight_share") as [ws|] eqn:Ews;
    simpl in Ex.
  - inv_bind Ex as x' Ex'. injection Ex as -> ->.
    apply init_slave_Ok in Ex' as (w & m & dm & Hw & Hr & Hm & -> & Hk).
    exists d0, (slave_fill (replace_defaults a d0) dm), u.
    repeat split; try done. right. repeat split; try done.
    exists m, dm. split; [done|]. exists w. repeat split; try done.
  - apply init_master_Ok in Ex
      as (W_ & b_ & f & df & name & fw & -> & -> & Ha & Hr & Hw).
    exists d0, (master_fill (replace_defaults a d0) (param_idx s) f df), u.
    simpl. repeat split; try done. left. repeat split; try done.
    + exists f, df, name, fw. done.
    + eauto.
Qed.


Lemma is_master_region_master d p f df u off :
  is_master_region (finish (master_fill d p f df) u off) = true.
Proof. unfold is_master_region. by dict_lookup. Qed.

Lemma is_master_region_slave d (dm : dict Tensor) u off :
  is_master_region (finish (slave_fill d dm) u off) = false.
Proof. unfold is_master_region. by dict_lookup. Qed.

Lemma units_of_finish d u off : units_of (finish d u off) = u.
Proof. unfold units_of, int_at. by dict_lookup. Qed.

Lemma sum_units_app (l1 l2 : list (dict Tensor)) :
  sum_units (l1 ++ l2) = sum_units l1 + sum_units l2.
Proof. induction l1 as [|d l1 IH]; simpl; [done|]. rewrite IH. lia. Qed.

Lemma n_masters_app (l1 l2 : list (dict Tensor)) :
  n_masters (l1 ++ l2) = n_masters l1 + n_masters l2.
Proof.
  unfold n_masters, masters_of. rewrite List.filter_app, length_app. lia.
Qed.

Lemma take_S_insert (L : list (dict Tensor)) i d :
  (i < length L)%nat -> take (S i) (<[i := d]> L) = take i L ++ [d].
Proof.
  intros Hi. rewrite (take_S_r _ _ d) by (by apply list_lookup_insert_eq).
  by rewrite take_insert_ge.
Qed.

Lemma region_done_insert a L0 L i x j d :
  (j <= i)%nat -> region_done a L0 L j d ->
  region_done a L0 (<[i := x]> L) j d.
Proof.
  intros Hj (d0 & y & u & H0 & -> & Hu & Hf).
  exists d0, y, u. rewrite take_insert_ge by done. repeat split; try done.
  destruct Hf as [Hf|(m & dm & Hf & Hm)]; [by left|right].
  exists m, dm. rewrite length_insert. split; [done|].
  intros Hadm. destruct (Hm Hadm) as [Hlt Hl].
  by rewrite list_lookup_insert_ne by lia.
Qed.

(** A slave of an admissible input was filled from an earlier region:
    a later region, or the region itself, has no [param_idx] yet. *)
Lemma slave_reads_earlier a L0 i s d0 m dm x :
  ctor_inv a L0 i s -> L0 !! i = Some d0 ->
  <[i := <["layer_type" := VStr "slave"]> (replace_defaults a d0)]>
    (regions s) !! m = Some dm ->
  filled_slave a (length (regions s)) d0 m dm x ->
  admissible L0 -> (m < i)%nat /\ regions s !! m = Some dm.
Proof.
  intros [Hlen Hrest _ _ _ _ _] H0 Hm (w & Hw & Hr & _ & Hk) Hadm.
  assert (Hi : (i < length (regions s))%nat).
  { rewrite Hlen. by apply lookup_lt_Some in H0. }
  rewrite weight_share_replace_defaults in Hw.
  assert (Hlt : (m < i)%nat).
  { destruct Hadm as [Hfresh|Hback].
    - destruct (decide (m < i)%nat) as [|Hge]; [done|exfalso].
      assert (Hp0 : dm !! "param_idx" = None).
      { destruct (decide (m = i)) as [->|Hne].
        - rewrite list_lookup_insert_eq in Hm by done.
          injection Hm as <-. rewrite lookup_insert_ne by done.
          unfold replace_defaults. rewrite !lookup_replace_default.
          repeat case_decide; try done. by apply (Hfresh i).
        - rewrite list_lookup_insert_ne in Hm by done.
          rewrite Hrest in Hm by lia. by apply (Hfresh m). }
      apply Forall_cons in Hk as [_ Hk].
      apply Forall_cons in Hk as [_ Hk].
      apply Forall_cons in Hk as [[? Hk] _]. congruence.
    - destruct (Hback i d0 w H0 Hw) as (m' & Hr' & Hlt).
      rewrite Hlen in Hr. congruence. }
  split; [done|]. by rewrite list_lookup_insert_ne in Hm by lia.
Qed.

Lemma init_region_inv a rng L0 i s s' :
  (i < length L0)%nat ->
  ctor_inv a L0 i s -> init_region a rng i s = Ok s' ->
  ctor_inv a L0 (S i) s'.
Proof.
  intros Hi Hinv H.
  pose proof Hinv as [Hlen Hrest HW Hb Hmas Hoff Hdone].
  apply init_region_Ok in H
    as (d0 & x & u & Hd0 & Hu & Hregs & Ho & Hcase).
  assert (Hi' : (i < length (regions s))%nat) by lia.
  assert (H0 : L0 !! i = Some d0) by (by rewrite <- Hrest).
  set (D := finish x u (output_offset s)) in *.
  assert (Hkind :
    (filled_master a (param_idx s) d0 x /\ is_master_region D = true
     /\ param_idx s' = param_idx s + 1
     /\ Z.of_nat (length (bW s')) = param_idx s + 1
     /\ length (bb s') = length (bW s'))
    \/ ((exists m dm, filled_slave a (length (regions s)) d0 m dm x
          /\ (admissible L0 -> (m < i)%nat /\ regions s !! m = Some dm))
        /\ is_master_region D = false
        /\ param_idx s' = param_idx s
        /\ Z.of_nat (length (bW s')) = param_idx s
        /\ length (bb s') = length (bW s'))).
  { destruct Hcase as [(Hf & Hp & W_ & b_ & EW & Eb)
                      |((m & dm & Hm & Hf) & Hp & EW & Eb)].
    - left. split; [done|]. split.
      { destruct Hf as (_ & f & df & name & fw & -> & _).
        apply is_master_region_master. }
      split; [done|]. rewrite EW, Eb, !length_app. simpl. lia.
    - right. split.
      { exists m, dm. split; [done|].
        by apply (slave_reads_earlier a L0 i s d0 m dm x). }
      split.
      { destruct Hf as (w & _ & _ & -> & _). apply is_master_region_slave. }
      split; [done|]. rewrite EW, Eb. done. }
  assert (Ht : take (S i) (regions s') = take i (regions s) ++ [D]).
  { rewrite Hregs. by apply take_S_insert. }
  constructor.
  - by rewrite Hregs, length_insert.
  - intros j Hj. rewrite Hregs, list_lookup_insert_ne by lia.
    apply Hrest. lia.
  - destruct Hkind as [(_ & _ & -> & -> & _)|(_ & _ & -> & -> & _)]; done.
  - destruct Hkind as [(_ & _ & _ & _ & ->)|(_ & _ & _ & _ & ->)]; done.
  - rewrite Ht, n_masters_app. unfold n_masters at 2, masters_of. simpl.
    destruct Hkind as [(_ & -> & -> & _)|(_ & -> & -> & _)]; simpl;
      rewrite Hmas; lia.
  - rewrite Ht, sum_units_app, Ho, Hoff. simpl.
    unfold D. rewrite units_of_finish. lia.
  - intros j d Hj Hd. rewrite Hregs in Hd |- *.
    destruct (decide (j = i)) as [->|Hne].
    + rewrite list_lookup_insert_eq in Hd by done. injection Hd as <-.
      apply region_done_insert; [done|].
      exists d0, x, u. rewrite <- Hoff, <- Hmas. repeat split; try done.
      destruct Hkind as [(Hf & _)|((m & dm & Hf & Hm) & _)];
        [by left|right]. exists m, dm. done.
    + rewrite list_lookup_insert_ne in Hd by done.
      apply region_done_insert; [lia|]. apply Hdone; [lia|done].
Qed.

Lemma for_each_seq_inv {St : Type} (P : nat -> St -> Prop)
    (body : nat -> St -> result St) (len start : nat) (x x' : St) :
  P start x ->
  (forall i y y', (start <= i < start + len)%nat ->
     P i y -> body i y = Ok y' -> P (S i) y') ->
  for_each body (seq start len) x = Ok x' ->
  P (start + len)%nat x'.
Proof.
  revert start x. induction len as [|len IH]; intros start x H0 Hstep H.
  - injection H as <-. by rewrite Nat.add_0_r.
  - simpl in H. inv_bind H as x1 E.
    replace (start + S len)%nat with (S start + len)%nat by lia.
    apply (IH (S start) x1); [| |done].
    + apply Hstep with x; [lia|done|done].
    + intros i y y' Hi. apply Hstep. lia.
Qed.

Lemma init_loop_inv a rng L0 s :
  for_each (init_region a rng) (seq 0 (length L0))
           {| regions := L0; bW := []; bb := [];
              output_offset := 0; param_idx := 0 |} = Ok s ->
  ctor_inv a L0 (length L0) s.
Proof.
  intros H.
  apply (for_each_seq_inv (ctor_inv a L0) _ _ 0 _ _) in H; [done| |].
  - constructor; simpl; try done. intros; lia.
  - intros i s1 s2 Hi Hinv Hs. apply (init_region_inv a rng L0 i s1); [lia|done..].
Qed.


Lemma sum_n_units_Ok (ls : list (dict Tensor)) (acc r : Z) :
  sum_n_units ls acc = Ok r -> r = acc + sum_units ls.
Proof.
  revert acc. induction ls as [|l ls IH]; simpl; intros acc H.
  - injection H as <-. lia.
  - inv_bind H as u Eu. apply get_int_Ok in Eu.
    apply IH in H. unfold units_of, int_at. rewrite Eu. simpl. lia.
Qed.

Lemma filter_masters_Ok (ls ms : list (dict Tensor)) :
  filter_masters ls = Ok ms -> ms = masters_of ls.
Proof.
  revert ms. induction ls as [|l ls IH]; simpl; intros ms H.
  - by injection H as <-.
  - inv_bind H as v Ev. inv_bind H as rest Er. injection H as <-.
    apply getitem_Ok in Ev. apply IH in Er as ->.
    unfold is_master_region. rewrite Ev. by destruct (is_master v).
Qed.

(** A successful [__init__] establishes [constructed]. *)
Lemma init_constructed a rng self :
  __init__ a rng = Ok self -> constructed a self.
Proof.
  unfold __init__. intros H.
  inv_bind H as s Es. inv_bind H as fc Efc. inv_bind H as [] _.
  inv_bind H as units Eu.
  apply init_loop_inv in Es as [Hlen Hrest HW Hb Hmas Hoff Hdone].
  apply sum_n_units_Ok in Eu. rewrite Z.add_0_l in Eu. subst units.
  assert (Ht : take (length (arg_subregion_layers a)) (regions s) = regions s).
  { apply take_ge. lia. }
  rewrite Ht in Hmas.
  destruct fc as [h|]; inv_bind H as ms Em; inv_bind H as l1 _;
    inv_bind H as l2 _; injection H as <-;
    apply filter_masters_Ok in Em as ->;
    (constructor; simpl; unfold fc_units; simpl; try done; try lia;
     intros j d Hd; apply Hdone; [|done];
     apply lookup_lt_Some in Hd; lia).
Qed.

End Constructor.

(** ** MultiSequenceConvolutionLayer: the layout of the pooled buffer *)

Section Layout.
Context {Tensor Rng : Type} `{!GpuOps Tensor Rng} `{!NeuralNets Tensor}.
Import MultiSequenceConvolutionLayer.
Implicit Types (d : dict Tensor) (L : list (dict Tensor)).

Lemma lookup_finish_other d u off k :
  k <> "n_units" -> k <> "output_offset" -> finish d u off !! k = d !! k.
Proof. intros. unfold finish. by rewrite !lookup_insert_ne. Qed.

Lemma region_done_layout a L0 L j d :
  region_done a L0 L j d ->
  int_at d "output_offset" = Some (sum_units (take j L))
  /\ int_at d "n_units" = Some (units_of d)
  /\ exists n_in ps nf,
       d !! "n_in" = Some (VInt n_in) /\ d !! "pool_size" = Some (VInt ps)
       /\ d !! "n_filters" = Some (VInt nf)
       /\ MaxPoolingLayer._compute_n_units n_in ps nf = Ok (units_of d).
Proof.
  intros (d0 & x & u & _ & -> & (n_in & ps & nf & Hn & Hp & Hf & Hu) & _).
  rewrite units_of_finish. unfold int_at.
  split; [by dict_lookup|]. split; [by dict_lookup|].
  exists n_in, ps, nf. by rewrite !lookup_finish_other.
Qed.









End Layout.

(** ** MultiSequenceConvolutionLayer: masters, slaves and parameters *)

Section Sharing.
Context {Tensor Rng : Type} `{!GpuOps Tensor Rng} `{!NeuralNets Tensor}.
Import MultiSequenceConvolutionLayer.
Implicit Types (d : dict Tensor) (L : list (dict Tensor)).

Lemma region_done_weight_share a L0 L j d :
  region_done a L0 L j d ->
  exists d0, L0 !! j = Some d0 /\ d !! "weight_share" = d0 !! "weight_share".
Proof.
  intros (d0 & x & u & H0 & -> & _ & Hf). exists d0. split; [done|].
  rewrite <- (weight_share_replace_defaults a d0).
  destruct Hf as [(_ & f & df & name & fw & -> & _)
                 |(m & dm & (w & _ & _ & -> & _) & _)]; by dict_lookup.
Qed.

Lemma region_done_master a L0 L j d :
  region_done a L0 L j d -> d !! "weight_share" = None ->
  d !! "layer_type" = Some (VStr "master")
  /\ int_at d "param_idx" = Some (n_masters (take j L))
  /\ is_master_region d = true.
Proof.
  intros Hd Hw.
  destruct (region_done_weight_share _ _ _ _ _ Hd) as (d0' & H0' & Hw').
  destruct Hd as (d0 & x & u & H0 & -> & _ & Hf).
  destruct Hf as [(_ & f & df & name & fw & -> & _)
                 |(m & dm & (w & Hws & _) & _)].
  - unfold int_at, is_master_region. repeat split; by dict_lookup.
  - rewrite weight_share_replace_defaults in Hws. congruence.
Qed.

Lemma not_copied k :
  k = "n_units" \/ k = "output_offset" -> k ∉ copied_keys.
Proof.
  unfold copied_keys. intros [->| ->] Hin;
    repeat (apply elem_of_cons in Hin as [Hin|Hin]; [discriminate|]);
    by apply elem_of_nil in Hin.
Qed.

Lemma lookup_slave_fill d (dm : dict Tensor) k :
  k ∈ copied_keys -> is_Some (dm !! k) -> slave_fill d dm !! k = dm !! k.
Proof.
  intros Hk [v Hv]. unfold copied_keys in Hk.
  repeat (apply elem_of_cons in Hk as [->|Hk]);
    [..|by apply elem_of_nil in Hk];
    unfold slave_fill;
    repeat (rewrite lookup_copy_from; case_decide; try done);
    by rewrite Hv.
Qed.

Lemma region_done_slave a L0 L j d :
  region_done a L0 L j d -> is_Some (d !! "weight_share") ->
  is_slave_region d /\ is_master_region d = false
  /\ exists w m dm,
       d !! "weight_share" = Some (VInt w)
       /\ py_resolve (length L) w = Ok m
       /\ Forall (fun k => is_Some (dm !! k) /\ d !! k = dm !! k) copied_keys
       /\ (admissible L0 -> (m < j)%nat /\ L !! m = Some dm).
Proof.
  intros Hd [v Hw].
  destruct (region_done_weight_share _ _ _ _ _ Hd) as (d0' & H0' & Hw').
  destruct Hd as (d0 & x & u & H0 & -> & _ & Hf).
  destruct Hf as [(Hws & _)|(m & dm & (w & Hws & Hr & -> & Hk) & Hm)].
  - rewrite weight_share_replace_defaults in Hws. congruence.
  - split; [unfold is_slave_region; by dict_lookup|].
    split; [apply is_master_region_slave|].
    exists w, m, dm. split.
    { rewrite weight_share_replace_defaults in Hws. congruence. }
    split; [done|]. split; [|done].
    apply Forall_forall. intros k Hin.
    pose proof (proj1 (Forall_forall _ _) Hk k Hin) as Hs.
    split; [done|].
    rewrite lookup_finish_other.
    + by apply lookup_slave_fill.
    + intros ->. by apply (not_copied "n_units"); [left|].
    + intros ->. by apply (not_copied "output_offset"); [right|].
Qed.

Lemma n_masters_take_mono L i j :
  (i <= j)%nat -> n_masters (take i L) <= n_masters (take j L).
Proof.
  intros Hij. replace j with (i + (j - i))%nat by lia.
  rewrite <- take_take_drop, n_masters_app. unfold n_masters. lia.
Qed.

Lemma n_masters_take_S L j d :
  L !! j = Some d ->
  n_masters (take (S j) L)
    = n_masters (take j L) + (if is_master_region d then 1 else 0).
Proof.
  intros Hd. rewrite (take_S_r _ _ d) by done. rewrite n_masters_app.
  unfold n_masters at 2, masters_of. simpl. by destruct (is_master_region d).
Qed.

Lemma n_masters_take_le L j : n_masters (take j L) <= n_masters L.
Proof.
  destruct (decide (j <= length L)%nat).
  - rewrite <- (firstn_all L) at 2. by apply n_masters_take_mono.
  - rewrite take_ge by lia. lia.
Qed.

(** Every region of a layer built from an admissible input holds the
    keys that the two passes read, and its [param_idx] is the index of a
    master declared no later than itself. *)
Lemma regions_keyed a L0 L :
  admissible L0 ->
  (forall i d, L !! i = Some d -> region_done a L0 L i d) ->
  forall j d, L !! j = Some d ->
    keyed d
    /\ exists p, d !! "param_idx" = Some (VInt p)
                 /\ 0 <= p < n_masters (take (S j) L).
Proof.
  intros Hadm Hdone j. induction (lt_wf j) as [j _ IH]. intros d Hd.
  pose proof (Hdone j d Hd) as Hr.
  destruct (region_done_layout _ _ _ _ _ Hr)
    as (Ho & Hu & n_in & ps & nf & Hn & Hp & Hf & _).
  unfold int_at in Ho, Hu.
  assert (Hoo : exists z, d !! "output_offset" = Some (VInt z)).
  { destruct (d !! "output_offset") as [[]|]; try done. eauto. }
  assert (Huu : exists z, d !! "n_units" = Some (VInt z)).
  { destruct (d !! "n_units") as [[]|]; try done. eauto. }
  destruct (d !! "weight_share") as [ws|] eqn:Hws.
  - destruct (region_done_slave _ _ _ _ _ Hr) as (Hs & Hnm & w & m & dm & Hw & Hres & Hk & Hm);
      [by rewrite Hws|].
    destruct (Hm Hadm) as [Hlt Hdm].
    destruct (IH m Hlt dm Hdm) as ([Hf' Hdf' _ _ _ Hfw' _ _ _ _] & p & Hp' & Hpr).
    pose proof (proj1 (Forall_forall _ _) Hk) as Hk'.
    assert (Hcp : forall k, k ∈ copied_keys -> d !! k = dm !! k).
    { intros k Hin. by apply Hk'. }
    unfold copied_keys in Hcp.
    split.
    + constructor; eauto;
        try (rewrite Hcp by repeat constructor; eauto).
    + exists p. rewrite Hcp by repeat constructor. split; [done|].
      pose proof (n_masters_take_mono L (S m) (S j) ltac:(lia)). lia.
  - destruct (region_done_master _ _ _ _ _ Hr Hws) as (Hlt & Hpi & Hm).
    destruct (region_done_weight_share _ _ _ _ _ Hr) as (d0' & H0' & Hw').
    destruct Hr as (d0 & x & u & H0 & -> & _ & Hfill).
    destruct Hfill as [(_ & f & df & name & fw & -> & _ & _ & Hfw)
                      |(m & dm & (w & Hws' & _) & _)].
    2:{ rewrite weight_share_replace_defaults in Hws'. congruence. }
    split.
    + constructor; eauto.
      * exists f. by dict_lookup.
      * exists df. by dict_lookup.
      * exists fw. by dict_lookup.
      * exists (n_masters (take j L)). by dict_lookup.
    + exists (n_masters (take j L)). split; [by dict_lookup|].
      rewrite (n_masters_take_S L j _ Hd), Hm. unfold n_masters. lia.
Qed.


(** For descriptors that bring no [param_idx], a constructor that
    returns has found every [weight_share] pointing backwards. *)
Lemma fresh_init_backrefs a rng self :
  fresh (arg_subregion_layers a) -> __init__ a rng = Ok self ->
  backrefs (arg_subregion_layers a).
Proof.
  intros Hfresh Hinit j d0 w H0 Hw.
  destruct (init_constructed a rng self Hinit) as [Hlen Hdone _ _ _ _ _ _].
  destruct (lookup_lt_is_Some_2 (subregion_layers self) j) as [d Hd].
  { rewrite Hlen. by apply lookup_lt_Some in H0. }
  destruct (region_done_weight_share _ _ _ _ _ (Hdone j d Hd))
    as (d0' & H0' & Hw').
  assert (d0' = d0) by congruence. subst d0'.
  destruct (region_done_slave _ _ _ _ _ (Hdone j d Hd))
    as (_ & _ & w' & m & dm & Hws & Hr & _ & Hm).
  { rewrite Hw', Hw. eauto. }
  destruct (Hm (or_introl Hfresh)) as [Hlt _].
  exists m. rewrite <- Hlen. split; [|done]. congruence.
Qed.

End Sharing.

(** ** MultiSequenceConvolutionLayer: layer-wide arguments *)

Section Defaults.
Context {Tensor Rng : Type} `{!GpuOps Tensor Rng} `{!NeuralNets Tensor}.
Import MultiSequenceConvolutionLayer.
Implicit Types (d : dict Tensor) (L : list (dict Tensor)).

Lemma lookup_replace_defaults a d k :
  k ∈ default_keys ->
  replace_defaults a d !! k
    = match layer_wide a k with
      | Some v => Some v
      | None => d !! k
      end.
Proof.
  unfold default_keys. intros Hk.
  repeat (apply elem_of_cons in Hk as [->|Hk]);
    [..|by apply elem_of_nil in Hk];
    unfold replace_defaults, layer_wide; simpl;
    repeat (rewrite lookup_replace_default; case_decide; try done);
    match goal with |- context [?f <$> ?x] => by destruct x end.
Qed.

(** C6, as the constructor has it.  Let [k] be one of the seven keys with
    a layer-wide argument, for a region that reads [k] from its own
    dictionary (every region for [pool_size], the penalty weights and
    [lr_multiplier]; the regions without [weight_share] for [n_filters],
    [filter_width] and [activation_function]).  After construction the
    region holds the layer-wide argument if that is not [None], whether
    or not the region supplied a value of its own; with a [None] argument
    it holds the value it supplied; and with neither, a master holds the
    constant 0., 0. or 1. for the penalty weights and [lr_multiplier]. *)
Theorem layer_wide_argument_replaces_region_value a rng self j d0 d k :
  __init__ a rng = Ok self ->
  arg_subregion_layers a !! j = Some d0 ->
  subregion_layers self !! j = Some d ->
  k ∈ default_keys ->
  (k ∈ copied_keys -> d0 !! "weight_share" = None) ->
  d !! k = match layer_wide a k with
           | Some v => Some v
           | None =>
               match d0 !! k with
               | Some v => Some v
               | None =>
                   if has_key d0 "weight_share" then None
                   else hard_default k
               end
           end.
Proof.
  intros Hinit H0 Hd Hk Hcopied.
  destruct (init_constructed a rng self Hinit) as [_ Hdone _ _ _ _ _ _].
  destruct (Hdone j d Hd) as (d0' & x & u & H0' & -> & _ & Hfill).
  assert (d0' = d0) by congruence. subst d0'.
  pose proof (lookup_replace_defaults a d0 k Hk) as Hrd.
  unfold has_key.
  destruct Hfill as [(Hws & f & df & name & fw & -> & _)
                    |(m & dm & (w & Hws & _ & -> & _) & _)];
    rewrite weight_share_replace_defaults in Hws; rewrite Hws.
  - clear Hcopied. unfold default_keys in Hk.
    repeat (apply elem_of_cons in Hk as [->|Hk]);
      [..|by apply elem_of_nil in Hk];
      unfold finish, master_fill;
      repeat (rewrite lookup_setdefault || rewrite lookup_insert);
      repeat (case_decide; try done);
      rewrite Hrd; unfold hard_default; simpl;
      destruct (layer_wide a _); try done;
      match goal with |- context [d0 !! ?k'] => by destruct (d0 !! k') end.
  - unfold default_keys in Hk.
    repeat (apply elem_of_cons in Hk as [->|Hk]);
      [..|by apply elem_of_nil in Hk];
      try (assert (Hn : d0 !! "weight_share" = None)
             by (apply Hcopied; unfold copied_keys; repeat constructor);
           congruence);
      unfold finish, slave_fill;
      repeat (rewrite lookup_copy_from || rewrite lookup_insert);
      repeat (case_decide; try done);
      rewrite Hrd;
      destruct (layer_wide a _); try done;
      match goal with |- context [d0 !! ?k'] => by destruct (d0 !! k') end.
Qed.

End Defaults.

(** ** MultiSequenceConvolutionLayer: the first loop of [backprop] *)

Section Accumulation.
Context {Tensor Rng : Type} `{!GpuOps Tensor Rng} `{!NeuralNets Tensor}.
Import MultiSequenceConvolutionLayer.
Implicit Types (d : dict Tensor) (L : list (dict Tensor)).
Implicit Types (pre xs : list (Tensor * Tensor * dict Tensor)).

Lemma region_gradient_total argmax df_output x fm d :
  keyed d -> d !! "n_filters" <> Some (VInt 0) ->
  exists g, region_gradient argmax df_output x fm d = Ok g.
Proof.
  intros [_ [df Hdf] _ [ps Hps] [nf Hnf] [fw Hfw] [u Hu] [off Hoff] _ _] Hnz.
  unfold region_gradient.
  rewrite (proj2 (get_fun_Ok d "df" df) Hdf). simpl.
  rewrite (proj2 (get_int_Ok d "pool_size" ps) Hps). simpl.
  rewrite (proj2 (get_int_Ok d "n_filters" nf) Hnf). simpl.
  rewrite (proj2 (get_int_Ok d "n_units" u) Hu). simpl.
  unfold py_int_div. destruct (decide (nf = 0)) as [->|_]; [done|]. simpl.
  rewrite (proj2 (get_int_Ok d "output_offset" off) Hoff). simpl.
  rewrite (proj2 (get_int_Ok d "filter_width" fw) Hfw). simpl. eauto.
Qed.

Lemma iadd_at_Ok (l : list Tensor) (p : Z) (x g : Tensor) :
  0 <= p -> l !! Z.to_nat p = Some x ->
  iadd_at l p g = Ok (<[Z.to_nat p := tadd x g]> l).
Proof.
  intros Hp Hx. pose proof (lookup_lt_Some _ _ _ Hx) as Hlt.
  assert (Hr : py_resolve (length l) p = Ok (Z.to_nat p)).
  { unfold py_resolve. destruct (decide (p < 0)); [lia|].
    destruct (decide (0 <= p < Z.of_nat (length l))); [done|lia]. }
  unfold iadd_at, py_index, py_setindex. rewrite Hr. simpl.
  rewrite Hx. simpl. by rewrite ?Hr.
Qed.

Lemma accumulate_master d gW gb (df_W df_b : list Tensor) :
  is_master_region d = true ->
  accumulate d gW gb df_W df_b = Ok (df_W ++ [gW], df_b ++ [gb]).
Proof.
  unfold is_master_region, accumulate, getitem.
  destruct (d !! "layer_type") as [v|]; [|done]. simpl. by intros ->.
Qed.

Lemma accumulate_slave d gW gb (df_W df_b : list Tensor) p xW xb :
  keyed d -> is_master_region d = false ->
  d !! "param_idx" = Some (VInt p) -> 0 <= p ->
  df_W !! Z.to_nat p = Some xW -> df_b !! Z.to_nat p = Some xb ->
  accumulate d gW gb df_W df_b
    = Ok (<[Z.to_nat p := tadd xW gW]> df_W,
          <[Z.to_nat p := tadd xb gb]> df_b).
Proof.
  intros Hk Hm Hp H0 HW Hb. unfold accumulate, getitem.
  unfold is_master_region in Hm.
  destruct (keyed_layer_type d Hk) as [Hl|Hl]; rewrite Hl in Hm |- *;
    simpl in *; [done|].
  rewrite (proj2 (get_int_Ok d "param_idx" p) Hp). simpl.
  rewrite (iadd_at_Ok df_W p xW gW H0 HW). simpl.
  by rewrite (iadd_at_Ok df_b p xb gb H0 Hb).
Qed.

Lemma aliasing_app k (r1 r2 : list (dict Tensor * Tensor)) :
  aliasing k (r1 ++ r2) = aliasing k r1 ++ aliasing k r2.
Proof. unfold aliasing. apply List.filter_app. Qed.

Lemma aliasing_one k d (g : Tensor) p :
  d !! "param_idx" = Some (VInt p) ->
  aliasing k [(d, g)] = if decide (p = k) then [(d, g)] else [].
Proof.
  intros Hp. unfold aliasing, int_at. simpl. rewrite Hp.
  destruct (decide (p = k)) as [->|Hne].
  - by rewrite bool_decide_eq_true_2.
  - rewrite bool_decide_eq_false_2; [done|]. congruence.
Qed.

Lemma sum_in_order_snoc (xs : list Tensor) (x g : Tensor) :
  sum_in_order xs = Some x -> sum_in_order (xs ++ [g]) = Some (tadd x g).
Proof.
  destruct xs as [|y ys]; simpl; [done|]. intros [= <-].
  by rewrite fold_left_app.
Qed.

Lemma seeded_snoc (rs : list (dict Tensor * Tensor)) d (g : Tensor) :
  seeded rs -> is_slave_region d -> seeded (rs ++ [(d, g)]).
Proof.
  destruct rs as [|r rs]; simpl; [done|]. intros [Hm Hs] Hd.
  split; [done|]. apply Forall_app. split; [done|]. by constructor.
Qed.

Lemma standalone_snoc argmax df_output pre x fm d g :
  region_gradient argmax df_output x fm d = Ok g ->
  standalone_W argmax df_output (pre ++ [(x, fm, d)])
    = standalone_W argmax df_output pre ++ [(d, g.1.2)]
  /\ standalone_b argmax df_output (pre ++ [(x, fm, d)])
     = standalone_b argmax df_output pre ++ [(d, g.2)]
  /\ standalone_filtermaps argmax df_output (pre ++ [(x, fm, d)])
     = standalone_filtermaps argmax df_output pre ++ [g.1.1].
Proof.
  intros Hg. unfold standalone_W, standalone_b, standalone_filtermaps.
  rewrite !omap_app. simpl. by rewrite Hg.
Qed.

Lemma n_masters_snoc L d :
  n_masters (L ++ [d]) = n_masters L + (if is_master_region d then 1 else 0).
Proof.
  rewrite n_masters_app. unfold n_masters at 2, masters_of. simpl.
  by destruct (is_master_region d).
Qed.

Lemma seeded_sum (rs : list (dict Tensor * Tensor)) :
  seeded rs -> exists x, sum_in_order (map snd rs) = Some x.
Proof. destruct rs as [|r rs]; simpl; [done|eauto]. Qed.

Lemma accumulated_nil argmax df_output :
  accumulated argmax df_output [] ([], [], []).
Proof.
  unfold accumulated. simpl. repeat split; try done.
  all: unfold n_masters in *; simpl in *; lia.
Qed.

Lemma backprop_region_step argmax df_output pre x fm d st :
  accumulated argmax df_output pre st ->
  treatable (map snd pre) d ->
  exists st',
    backprop_region argmax df_output (x, fm, d) st = Ok st'
    /\ accumulated argmax df_output (pre ++ [(x, fm, d)]) st'.
Proof.
  destruct st as [[df_W df_b] dfms].
  intros (HlW & Hlb & HnW & Hnb & Hfm & Hlfm & Hk)
         (Hkeyed & Hnz & p & Hp & Hpm & Hps).
  simpl in HnW, Hnb, Hfm, Hlfm, Hk.
  destruct (region_gradient_total argmax df_output x fm d Hkeyed Hnz)
    as ([[dfm gW] gb] & Hg).
  destruct (standalone_snoc argmax df_output pre x fm d _ Hg)
    as (EW & Eb & Ef). simpl in EW, Eb, Ef.
  set (n := n_masters (map snd pre)) in *.
  assert (Hn' : n_masters (map snd (pre ++ [(x, fm, d)]))
                = n + (if is_master_region d then 1 else 0)).
  { rewrite map_app. simpl. apply n_masters_snoc. }
  unfold backprop_region. rewrite Hg. simpl.
  destruct (is_master_region d) eqn:Hm.
  - rewrite (accumulate_master d gW gb df_W df_b Hm). simpl.
    eexists. split; [reflexivity|].
    specialize (Hpm eq_refl). subst p.
    unfold accumulated. cbv zeta. cbn [fst snd].
    rewrite EW, Eb, Ef, Hn', !length_app. cbn [length].
    split; [lia|]. split; [lia|]. split; [lia|]. split; [lia|].
    split; [by rewrite Hfm|]. split; [lia|].
    intros k. rewrite !aliasing_app, !(aliasing_one _ d _ n Hp).
    destruct (Hk k) as [Hlt Hge]. split.
    + intros Hk1. destruct (decide (n = Z.of_nat k)) as [Hnk|Hnk].
      * destruct (Hge ltac:(lia)) as [-> ->]. simpl.
        rewrite Hm. repeat split; try done.
        -- rewrite lookup_app_r by lia.
           replace (k - length df_W)%nat with 0%nat by lia. done.
        -- rewrite lookup_app_r by lia.
           replace (k - length df_b)%nat with 0%nat by lia. done.
      * rewrite !app_nil_r.
        destruct (Hlt ltac:(lia)) as (S1 & S2 & L1 & L2).
        repeat split; try done.
        -- rewrite lookup_app_l by lia. done.
        -- rewrite lookup_app_l by lia. done.
    + intros Hk1. destruct (Hge ltac:(lia)) as [-> ->].
      destruct (decide (n = Z.of_nat k)); [lia|done].
  - destruct (Hps eq_refl) as [Hp0 Hpn].
    destruct (Hk (Z.to_nat p)) as [Hlt _].
    rewrite Z2Nat.id in Hlt by done.
    destruct (Hlt Hpn) as (S1 & S2 & L1 & L2).
    destruct (seeded_sum _ S1) as [xW HxW].
    destruct (seeded_sum _ S2) as [xb Hxb].
    rewrite HxW in L1. rewrite Hxb in L2.
    rewrite (accumulate_slave d gW gb df_W df_b p xW xb
               Hkeyed Hm Hp Hp0 L1 L2). simpl.
    eexists. split; [reflexivity|].
    assert (Hslave : is_slave_region d).
    { unfold is_slave_region. unfold is_master_region in Hm.
      destruct (keyed_layer_type d Hkeyed) as [Hl|Hl]; [|done].
      by rewrite Hl in Hm. }
    unfold accumulated. cbv zeta. cbn [fst snd].
    rewrite EW, Eb, Ef, Hn', !length_app, !length_insert. cbn [length].
    split; [lia|]. split; [lia|]. split; [lia|]. split; [lia|].
    split; [by rewrite Hfm|]. split; [lia|].
    intros k. rewrite !aliasing_app, !(aliasing_one _ d _ p Hp).
    destruct (Hk k) as [Hlt' Hge]. split.
    + intros Hk1. destruct (Hlt' ltac:(lia)) as (S1' & S2' & L1' & L2').
      destruct (decide (p = Z.of_nat k)) as [Hpk|Hpk].
      * assert (Z.to_nat p = k) by lia. subst k.
        rewrite !Z2Nat.id in * by done.
        rewrite !map_app. simpl.
        repeat split.
        -- by apply seeded_snoc.
        -- by apply seeded_snoc.
        -- rewrite list_lookup_insert_eq by (by eapply lookup_lt_Some).
           symmetry. by apply sum_in_order_snoc.
        -- rewrite list_lookup_insert_eq by (by eapply lookup_lt_Some).
           symmetry. by apply sum_in_order_snoc.
      * rewrite !app_nil_r. repeat split; try done.
        -- rewrite list_lookup_insert_ne by lia. done.
        -- rewrite list_lookup_insert_ne by lia. done.
    + intros Hk1. destruct (Hge ltac:(lia)) as [-> ->].
      destruct (decide (p = Z.of_nat k)); [lia|done].
Qed.

Lemma backprop_regions_total argmax df_output xs :
  forall pre st,
    accumulated argmax df_output pre st ->
    (forall j t, xs !! j = Some t ->
       treatable (map snd (pre ++ take j xs)) t.2) ->
    exists st',
      for_each (backprop_region argmax df_output) xs st = Ok st'
      /\ accumulated argmax df_output (pre ++ xs) st'.
Proof.
  induction xs as [|[[x fm] d] xs IH]; intros pre st Hacc Ht.
  - exists st. rewrite app_nil_r. done.
  - pose proof (Ht 0%nat (x, fm, d) eq_refl) as H0.
    simpl in H0. rewrite app_nil_r in H0.
    destruct (backprop_region_step argmax df_output pre x fm d st Hacc H0)
      as (st1 & E1 & Hacc1).
    destruct (IH (pre ++ [(x, fm, d)]) st1 Hacc1) as (st' & E & Hacc').
    { intros j t Hj. rewrite <- app_assoc. simpl.
      apply (Ht (S j) t Hj). }
    exists st'. split; [|by rewrite <- app_assoc in Hacc'].
    cbn [for_each]. rewrite E1. exact E.
Qed.

End Accumulation.

(** ** MultiSequenceConvolutionLayer: [backprop] *)

Section Backprop.
Context {Tensor Rng : Type} `{!GpuOps Tensor Rng} `{!NeuralNets Tensor}.
Import MultiSequenceConvolutionLayer.
Implicit Types (d m : dict Tensor) (L : list (dict Tensor)).

Lemma length_izip {A B : Type} (xs : list A) (ys : list B) :
  length (izip xs ys) = min (length xs) (length ys).
Proof.
  revert ys. induction xs as [|x xs IH]; intros [|y ys]; simpl; auto.
Qed.

Lemma map_snd_izip {A B : Type} (xs : list A) (ys : list B) :
  (length ys <= length xs)%nat -> map snd (izip xs ys) = ys.
Proof.
  revert ys. induction xs as [|x xs IH]; intros [|y ys]; simpl; intros Hl;
    try done; try lia.
  rewrite IH by lia. done.
Qed.

Lemma map_snd_izip3 (input fms : list Tensor) L :
  (length L <= length input)%nat -> length fms = length L ->
  map snd (izip3 input fms L) = L.
Proof.
  intros H1 H2. unfold izip3. apply map_snd_izip.
  rewrite length_izip. lia.
Qed.

Lemma master_has_no_weight_share a L0 L j d :
  region_done a L0 L j d ->
  (is_master_region d = true -> d !! "weight_share" = None)
  /\ (is_master_region d = false -> is_Some (d !! "weight_share")).
Proof.
  intros Hr. destruct (d !! "weight_share") as [v|] eqn:Hw.
  - destruct (region_done_slave _ _ _ _ _ Hr) as (_ & Hm & _);
      [by rewrite Hw|].
    split; [congruence|eauto].
  - destruct (region_done_master _ _ _ _ _ Hr Hw) as (_ & _ & Hm).
    split; [done|congruence].
Qed.

(** Every region of a layer built from an admissible input can be
    treated by the first loop of [backprop] after the regions declared
    before it. *)
Lemma regions_treatable a L0 L :
  admissible L0 ->
  (forall i d, L !! i = Some d -> region_done a L0 L i d) ->
  (forall d, d ∈ L -> d !! "n_filters" <> Some (VInt 0)) ->
  forall j d, L !! j = Some d -> treatable (take j L) d.
Proof.
  intros Hadm Hdone Hnz j d Hd.
  destruct (regions_keyed a L0 L Hadm Hdone j d Hd) as (Hk & p & Hp & Hpr).
  destruct (master_has_no_weight_share _ _ _ _ _ (Hdone j d Hd))
    as [Hm1 Hm0].
  rewrite (n_masters_take_S L j d Hd) in Hpr.
  split; [done|]. split.
  { apply Hnz. by eapply list_elem_of_lookup_2. }
  exists p. split; [done|]. split.
  - intros Hm.
    destruct (region_done_master _ _ _ _ _ (Hdone j d Hd) (Hm1 Hm))
      as (_ & Hpi & _).
    unfold int_at in Hpi. rewrite Hp in Hpi. congruence.
  - intros Hm. rewrite Hm in Hpr. lia.
Qed.

Lemma masters_have_penalties a L0 L j d :
  region_done a L0 L j d -> is_master_region d = true ->
  is_Some (d !! "l1_penalty_weight") /\ is_Some (d !! "l2_penalty_weight").
Proof.
  intros Hr Hm.
  destruct (master_has_no_weight_share _ _ _ _ _ Hr) as [Hm1 _].
  specialize (Hm1 Hm).
  destruct (region_done_weight_share _ _ _ _ _ Hr) as (d0' & H0' & Hw').
  destruct Hr as (d0 & x & u & H0 & -> & _ & Hfill).
  destruct Hfill as [(_ & f & df & name & fw & -> & _)
                    |(k & dm & (w & Hws & _) & _)].
  - split; dict_lookup; eauto.
  - rewrite weight_share_replace_defaults in Hws. congruence.
Qed.

Lemma backprop_penalty_Ok self (g : Tensor) m :
  is_Some (m !! "l1_penalty_weight") -> is_Some (m !! "l2_penalty_weight") ->
  penalty_returns m ->
  backprop_penalty self g m = Ok (l1_step m g).
Proof.
  intros [v1 H1] [v2 H2] [Hl2 Hl1].
  unfold backprop_penalty, l1_step, getitem. rewrite H1, H2. simpl.
  rewrite (Hl2 v2 H2).
  destruct (truthy v1) eqn:Ht; simpl; [|done].
  destruct (Hl1 v1 H1 Ht) as [c ->]. done.
Qed.

Lemma backprop_penalties_Ok self (ms : list (dict Tensor)) :
  (forall m, m ∈ ms ->
     is_Some (m !! "l1_penalty_weight")
     /\ is_Some (m !! "l2_penalty_weight") /\ penalty_returns m) ->
  forall df_W, backprop_penalties self df_W ms = Ok (l1_steps ms df_W).
Proof.
  induction ms as [|m ms IH]; intros Hm [|g df_W]; simpl; try done.
  destruct (Hm m ltac:(left)) as (H1 & H2 & Hp).
  rewrite (backprop_penalty_Ok self g m H1 H2 Hp). simpl.
  rewrite IH; [done|]. intros m' Hin. apply Hm. by right.
Qed.




Lemma py_index_last {A : Type} (l : list A) :
  l <> [] -> exists x, py_index l (-1) = Ok x /\ last l = Some x.
Proof.
  intros Hne. destruct (last l) as [x|] eqn:Hl.
  - exists x. split; [|done]. apply py_index_Ok.
    exists (pred (length l)). rewrite <- last_lookup. split; [|done].
    unfold py_resolve. destruct l; [done|]. simpl length.
    destruct (decide (-1 < 0)) as [_|?]; [|lia].
    case_decide; [|lia]. f_equal. lia.
  - apply last_None in Hl. done.
Qed.





(** The first loop of [backprop] on a constructed layer: it returns,
    and leaves in [df_W] and [df_b] the sums of the standalone
    gradients. *)
Lemma backprop_loop_accumulates a rng0 self input c df_output :
  admissible (arg_subregion_layers a) ->
  __init__ a rng0 = Ok self ->
  backprop_ready self input c df_output ->
  let L := subregion_layers self in
  let df := mask_df_output self c df_output in
  let xs := izip3 input (c_filtermaps c) L in
  map snd xs = L
  /\ exists st,
       for_each (backprop_region (c_argmax c) df) xs ([], [], []) = Ok st
       /\ accumulated (c_argmax c) df xs st.
Proof.
  intros Hadm Hinit [Hnz Hin Hfm Hpen Hcol] L df xs.
  destruct (init_constructed a rng0 self Hinit)
    as [Hlen Hdone HW Hb Hmas _ _ _].
  fold L in Hdone, Hnz, Hin, Hfm.
  assert (Hxs : map snd xs = L).
  { apply map_snd_izip3; [lia|done]. }
  split; [done|].
  destruct (backprop_regions_total (c_argmax c) df xs [] ([], [], []))
    as (st & E & Hacc).
  - apply accumulated_nil.
  - intros j t Hj. simpl.
    change (map snd (take j xs)) with (snd <$> take j xs).
    rewrite fmap_take. change (snd <$> xs) with (map snd xs). rewrite Hxs.
    apply (regions_treatable a _ L Hadm Hdone Hnz).
    rewrite <- Hxs, list_lookup_fmap, Hj. done.
  - exists st. done.
Qed.

(** What [backprop] returns once its first loop has returned. *)
Lemma backprop_returns a rng0 self input c df_output cache_ rng
    df_W df_b dfms :
  admissible (arg_subregion_layers a) ->
  __init__ a rng0 = Ok self ->
  cache_of self input rng cache_ c ->
  backprop_ready self input c df_output ->
  let L := subregion_layers self in
  let df := mask_df_output self c df_output in
  for_each (backprop_region (c_argmax c) df)
           (izip3 input (c_filtermaps c) L) ([], [], [])
    = Ok (df_W, df_b, dfms) ->
  exists r grad_fc,
    backprop self input df_output cache_ rng = Ok r
    /\ g_parameters r = l1_steps (masters_of L) df_W ++ df_b ++ grad_fc
    /\ g_filtermaps r = dfms
    /\ g_df_output r = df
    /\ match fully_connected_layer self with
       | Some h =>
           exists x ncols,
             last input = Some x /\ shape_at df 1 = Ok ncols
             /\ (grad_fc, g_input_fc r)
                = (let o := fc_backprop h x
                              (extract_columns df (fc_layer_offset self)
                                               ncols)
                              (c_activations_fc c) in
                   (o.1, Some o.2))
       | None => grad_fc = [] /\ g_input_fc r = None
       end.
Proof.
  intros Hadm Hinit Hcache [Hnz Hin Hfm Hpen Hcol] L df Eloop.
  destruct (init_constructed a rng0 self Hinit)
    as [Hlen Hdone HW Hb Hmas _ _ _].
  fold L in Hdone, Hnz, Hin, Hfm, Hpen, Hmas.
  assert (Hms : forall m, m ∈ masters_of L ->
            is_Some (m !! "l1_penalty_weight")
            /\ is_Some (m !! "l2_penalty_weight") /\ penalty_returns m).
  { intros m Hm. pose proof (Hpen m Hm) as Hp.
    apply list_elem_of_In, List.filter_In in Hm as [Hm1 Hm2].
    apply list_elem_of_In, list_elem_of_lookup in Hm1 as [j Hj].
    destruct (masters_have_penalties a _ L j m (Hdone j m Hj) Hm2).
    done. }
  pose proof (backprop_penalties_Ok self (masters_of L) Hms df_W) as Epen.
  unfold backprop.
  assert (Ec : match cache_ with
               | Some c0 => Ok c0
               | None => feed_forward self input false rng
               end = Ok c).
  { unfold cache_of in Hcache. destruct cache_; congruence. }
  rewrite Ec. simpl. fold df. fold L. rewrite Eloop. simpl.
  rewrite Hmas, Epen. simpl.
  destruct (fully_connected_layer self) as [h|] eqn:Hfc.
  - rewrite bool_decide_eq_true_2 by (fold L; lia). simpl.
    destruct (py_index_last input) as (x & -> & Hlast).
    { destruct input; [simpl in Hin; lia|done]. }
    simpl. destruct Hcol as [ncols Hc]; [eauto|].
    fold df in Hc. rewrite Hc. simpl.
    destruct (fc_backprop h x _ _) as [grad_fc df_input_fc] eqn:Efc.
    eexists _, grad_fc. simpl. repeat split.
    exists x, ncols. rewrite Efc. done.
  - eexists _, []. simpl. rewrite app_nil_r. done.
Qed.


End Backprop.

(** ** MultiSequenceConvolutionLayer: [feed_forward] and the dropout mask *)

Section FeedForward.
Context {Tensor Rng : Type} `{!GpuOps Tensor Rng} `{!NeuralNets Tensor}.
Import MultiSequenceConvolutionLayer.
Implicit Types (d m : dict Tensor) (L : list (dict Tensor)).

Lemma py_index_in_range {A : Type} (l : list A) (i : Z) :
  0 <= i < Z.of_nat (length l) ->
  exists x, py_index l i = Ok x /\ l !! Z.to_nat i = Some x.
Proof.
  intros Hi. destruct (lookup_lt_is_Some_2 l (Z.to_nat i)) as [x Hx]; [lia|].
  exists x. split; [|done]. apply py_index_Ok. exists (Z.to_nat i).
  split; [|done]. unfold py_resolve.
  destruct (decide (i < 0)); [lia|]. by destruct (decide (0 <= i < _)).
Qed.

Lemma elem_of_izip_snd {A B : Type} (xs : list A) (ys : list B) p :
  p ∈ izip xs ys -> p.2 ∈ ys.
Proof.
  revert ys. induction xs as [|x xs IH]; intros [|y ys]; simpl; intros Hp;
    try by apply elem_of_nil in Hp.
  apply elem_of_cons in Hp as [->|Hp]; [by left|right; by apply IH].
Qed.

Lemma all_same_batch_true (first : Tensor) (rest : list Tensor) N :
  shape_at first 0 = Ok N ->
  Forall (fun x => shape_at x 0 = Ok N) rest ->
  all_same_batch first rest = Ok true.
Proof.
  intros Hf. induction 1 as [|x rest Hx _ IH]; simpl; [done|].
  rewrite Hf, Hx. simpl. by destruct (decide (N = N)).
Qed.

Lemma feed_forward_regions_total self (xs : list (Tensor * dict Tensor)) :
  (forall p, p ∈ xs ->
     keyed p.2
     /\ exists i, p.2 !! "param_idx" = Some (VInt i)
                  /\ 0 <= i < Z.of_nat (length (W self))
                  /\ i < Z.of_nat (length (b self))) ->
  forall st, exists st',
    for_each (feed_forward_region self) xs st = Ok st'
    /\ length st'.1.1 = (length st.1.1 + length xs)%nat
    /\ (shape_contracts -> shape st'.1.2 = shape st.1.2).
Proof.
  induction xs as [|[x d] xs IH]; intros Hxs st.
  - exists st. simpl. split; [done|]. split; [lia|done].
  - destruct (Hxs (x, d) ltac:(left)) as (Hk & i & Hi & HiW & Hib).
    destruct Hk as [[f Hf] _ [n_in Hn] [ps Hps] [nf Hnf] _ _ [off Hoff] _ _].
    simpl in Hi.
    destruct (py_index_in_range (W self) i HiW) as (W_ & EW & _).
    destruct (py_index_in_range (b self) i ltac:(lia)) as (b_ & Eb & _).
    destruct st as [[fms pooled] argmax].
    destruct (max_pool_into (f (convolve_sequence x W_ b_)) ps nf n_in off
                            pooled argmax) as [pooled' argmax'] eqn:Emp.
    assert (E1 : feed_forward_region self (x, d) (fms, pooled, argmax)
                 = Ok (fms ++ [f (convolve_sequence x W_ b_)],
                       pooled', argmax')).
    { unfold feed_forward_region.
      rewrite (proj2 (get_int_Ok d "param_idx" i) Hi). simpl.
      rewrite EW, Eb. simpl.
      rewrite (proj2 (get_fun_Ok d "f" f) Hf). simpl.
      rewrite (proj2 (get_int_Ok d "pool_size" ps) Hps). simpl.
      rewrite (proj2 (get_int_Ok d "n_filters" nf) Hnf). simpl.
      rewrite (proj2 (get_int_Ok d "n_in" n_in) Hn). simpl.
      rewrite (proj2 (get_int_Ok d "output_offset" off) Hoff). simpl.
      by rewrite Emp. }
    destruct (IH (fun p Hp => Hxs p (list_elem_of_further _ _ _ Hp))
                 (fms ++ [f (convolve_sequence x W_ b_)], pooled', argmax'))
      as (st' & E & Hl & Hs).
    exists st'. cbn [for_each]. rewrite E1. split; [exact E|].
    cbn [fst snd] in *. rewrite length_app in Hl. simpl in Hl.
    split; [simpl; lia|].
    intros Hc. rewrite (Hs Hc).
    pose proof (shape_max_pool_into Hc (f (convolve_sequence x W_ b_))
                  ps nf n_in off pooled argmax) as Hsh.
    by rewrite Emp in Hsh.
Qed.

(** [feed_forward] on a constructed layer returns; the mask, when there
    is one, is sampled over the buffer that is returned. *)
Lemma feed_forward_returns a rng0 self input N prediction rng :
  admissible (arg_subregion_layers a) ->
  __init__ a rng0 = Ok self ->
  feed_forward_ready self input N ->
  exists c,
    feed_forward self input prediction rng = Ok c
    /\ length (c_filtermaps c) = length (subregion_layers self)
    /\ c_dropout_mask c
       = (if dropout_on self && negb prediction then
            Some (sample_dropout_mask rng (c_activations_pooled c))
          else None)
    /\ (shape_contracts -> shape (c_activations_pooled c) = [N; n_units self]).
Proof.
  intros Hadm Hinit [Hrows Hin Hne Hfc].
  destruct (init_constructed a rng0 self Hinit)
    as [Hlen Hdone HW Hb Hmas _ _ _].
  set (L := subregion_layers self) in *.
  destruct input as [|first rest]; [done|].
  apply Forall_cons in Hrows as [Hfirst Hrest].
  unfold feed_forward.
  assert (E0 : py_index (first :: rest) 0 = Ok first) by done.
  rewrite E0. simpl tail. cbn [mbind result_bind].
  rewrite (all_same_batch_true first rest N Hfirst Hrest).
  cbn [mbind result_bind py_assert]. rewrite Hfirst. cbn [mbind result_bind].
  destruct (feed_forward_regions_total self (izip (first :: rest) L))
    with (st := (@nil Tensor, gpu_empty [N; n_units self],
                 gpu_empty (shape (gpu_empty [N; n_units self]))))
    as (st' & E & Hl & Hs).
  { intros p Hp. apply elem_of_izip_snd in Hp.
    apply list_elem_of_lookup in Hp as [j Hj].
    destruct (regions_keyed a _ L Hadm Hdone j p.2 Hj) as (Hk & i & Hi & Hir).
    split; [done|]. exists i. split; [done|].
    pose proof (n_masters_take_le L (S j)). lia. }
  fold L. rewrite E. destruct st' as [[fms pooled] argmax].
  cbn [fst snd] in Hl, Hs. cbn [mbind result_bind].
  assert (Hlf : length fms = length L).
  { rewrite Hl, length_izip. simpl length in *. lia. }
  destruct (fully_connected_layer self) as [h|] eqn:Efc.
  - rewrite bool_decide_eq_true_2 by (fold L; simpl length in *; lia).
    cbn [mbind result_bind py_assert].
    destruct (py_index_last (first :: rest)) as (x & -> & _); [done|].
    cbn [mbind result_bind].
    destruct (fc_feed_forward h x prediction) as [|y ys] eqn:Ey.
    { by apply Hfc in Ey. }
    assert (E1 : py_index (y :: ys) 0 = Ok y) by done.
    rewrite E1. cbn [mbind result_bind].
    eexists. split; [reflexivity|]. cbn. split; [done|]. split; [done|].
    intros Hc. rewrite (shape_insert_columns Hc), (Hs Hc).
    apply (shape_empty Hc).
  - cbn [mbind result_bind].
    eexists. split; [reflexivity|]. cbn. split; [done|]. split; [done|].
    intros Hc. rewrite (Hs Hc). apply (shape_empty Hc).
Qed.

(** C5, as the code has it.  With dropout enabled and [prediction]
    false, [feed_forward] samples the mask over the whole pooled buffer:
    under the shapes that the kernels keep, the mask has [n_units]
    columns, the [fc_layer_offset] columns of the regions and, after
    them, the columns of the fully-connected branch.  [backprop] with
    that cache multiplies the whole of [df_output] by the mask, and the
    fully-connected branch is handed the columns from [fc_layer_offset]
    on of the masked gradient. *)
Theorem dropout_mask_covers_fully_connected_columns
    a rng0 self input N df_output rng rng' :
  admissible (arg_subregion_layers a) ->
  __init__ a rng0 = Ok self ->
  dropout_on self = true ->
  feed_forward_ready self input N ->
  exists c mask,
    feed_forward self input false rng = Ok c
    /\ c_dropout_mask c = Some mask
    /\ mask = sample_dropout_mask rng (c_activations_pooled c)
    /\ (shape_contracts ->
          shape mask = [N; n_units self]
          /\ n_units self
             = sum_units (subregion_layers self) + fc_units self
          /\ forall h, fully_connected_layer self = Some h ->
               n_units self = fc_layer_offset self + fc_n_units h)
    /\ (backprop_ready self input c df_output ->
          exists r,
            backprop self input df_output (Some c) rng' = Ok r
            /\ g_df_output r = apply_dropout_mask df_output mask
            /\ forall h, fully_connected_layer self = Some h ->
                 exists x ncols,
                   last input = Some x
                   /\ shape_at (apply_dropout_mask df_output mask) 1
                      = Ok ncols
                   /\ g_input_fc r
                      = Some (fc_backprop h x
                                (extract_columns
                                   (apply_dropout_mask df_output mask)
                                   (fc_layer_offset self) ncols)
                                (c_activations_fc c)).2).
Proof.
  intros Hadm Hinit Hdrop Hff.
  destruct (feed_forward_returns a rng0 self input N false rng
              Hadm Hinit Hff) as (c & Ec & Hlf & Hmask & Hshape).
  rewrite Hdrop in Hmask. simpl in Hmask.
  exists c, (sample_dropout_mask rng (c_activations_pooled c)).
  split; [done|]. split; [done|]. split; [done|].
  destruct (init_constructed a rng0 self Hinit)
    as [_ _ _ _ _ Hunits Hoff _].
  split.
  { intros Hc. rewrite (shape_dropout_mask Hc). split; [by apply Hshape|].
    split; [done|]. intros h Hh. unfold fc_units in Hunits.
    rewrite Hh in Hunits, Hoff. lia. }
  intros Hready.
  assert (Hdf : mask_df_output self c df_output
                = apply_dropout_mask df_output
                    (sample_dropout_mask rng (c_activations_pooled c))).
  { unfold mask_df_output. by rewrite Hdrop, Hmask. }
  destruct (backprop_loop_accumulates a rng0 self input c df_output
              Hadm Hinit Hready) as (_ & [[df_W df_b] dfms] & Eloop & _).
  destruct (backprop_returns a rng0 self input c df_output (Some c) rng'
              df_W df_b dfms Hadm Hinit eq_refl Hready Eloop)
    as (r & grad_fc & Er & _ & _ & Hout & Hfcr).
  exists r. rewrite Hdf in Hout, Hfcr. split; [done|]. split; [done|].
  intros h Hh. rewrite Hh in Hfcr.
  destruct Hfcr as (x & ncols & Hlast & Hcols & Hpair).
  exists x, ncols. split; [done|]. split; [done|].
  simpl in Hpair. by injection Hpair as _ ->.
Qed.

End FeedForward.

(** ** MultiSequenceConvolutionLayer: the penalty step of [backprop] *)

Section Penalties.
Import Examples QGpu MultiSequenceConvolutionLayer.

(** C2, evaluated on the code.  Lines 432-435 are run once per master,
    but they do not compute what the claim says.  For float penalty
    weights [l1] and [l2] of a master: if [l2] is not zero the step
    raises [TypeError], because [self.W] is the list of all weight
    arrays; otherwise, if [l1] is not zero, the step subtracts
    [l1 * sign(df_W_i)], the sign of the gradient and not of the weights.
    On the layer with one region and [l1_penalty_weight = .5], the
    weights are [-1/400, 1/400, -1/400, 1/400], the accumulated gradient
    is 1600 in each entry and [backprop] returns 1600 - 1/2 in each
    entry, where the claim expects 1600 + 1/2 in the entries with a
    negative weight.  On the same layer with [l2_penalty_weight = .5],
    [backprop] raises [TypeError]. *)
Theorem penalty_step_uses_gradient_sign_and_weight_list :
  (forall {Tensor Rng : Type} `{!GpuOps Tensor Rng}
          (self : t Tensor) (g : Tensor) (l1 l2 : Q) (m : dict Tensor),
     backprop_penalty self g
       (<["l1_penalty_weight" := VFloat l1]>
          (<["l2_penalty_weight" := VFloat l2]> m))
     = if Qeq_bool l2 0 then
         Ok (if Qeq_bool l1 0 then g else tsub g (smul l1 (sign g)))
       else Raise TypeError)
  /\ W l1_layer = [{| dims := [1; 4];
                      data := [-1 # 400; 1 # 400; -1 # 400; 1 # 400]%Q |}]
  /\ (exists r,
        backprop l1_layer [ones [1; 40]] (ones [1; 4]) None alternating
          = Ok r
        /\ g_parameters r !! 0%nat
           = Some {| dims := [1; 4];
                     data := [3199 # 2; 3199 # 2; 3199 # 2; 3199 # 2]%Q |}
        /\ g_parameters r !! 0%nat
           = Some (tsub (fill [1; 4] 1600%Q)
                        (smul (1 # 2) (sign (fill [1; 4] 1600%Q)))))
  /\ l1_l2_expected (1 # 2) 0
       {| dims := [1; 4]; data := [-1 # 400; 1 # 400; -1 # 400; 1 # 400]%Q |}
       (fill [1; 4] 1600%Q)
     = {| dims := [1; 4];
          data := [3201 # 2; 3199 # 2; 3201 # 2; 3199 # 2]%Q |}
  /\ backprop l2_layer [ones [1; 40]] (ones [1; 4]) None alternating
     = Raise TypeError.
Proof.
  split.
  { intros Tensor Rng ops self g l1 l2 m.
    unfold backprop_penalty, getitem.
    rewrite lookup_insert_eq. simpl.
    rewrite lookup_insert_ne by done. rewrite lookup_insert_eq. simpl.
    destruct (Qeq_bool l1 0); destruct (Qeq_bool l2 0); reflexivity. }
  split; [reflexivity|].
  split.
  { eexists. split; [vm_compute; reflexivity|].
    split; vm_compute; reflexivity. }
  split; vm_compute; reflexivity.
Qed.

End Penalties.

(** ** The statements on concrete layers *)

Section Witnesses.
Import Examples MultiSequenceConvolutionLayer.

Lemma shared_layer_built :
  __init__ shared_args alternating = Ok shared_layer.
Proof. vm_compute. reflexivity. Qed.

Lemma override_layer_built :
  __init__ override_args alternating = Ok override_layer.
Proof. vm_compute. reflexivity. Qed.

Lemma shared_args_fresh : fresh (arg_subregion_layers shared_args).
Proof.
  intros [|[|j]] d; simpl; intros [= <-]; vm_compute; reflexivity.
Qed.



(** C6, as the claim has it, fails: a region that supplies
    [pool_size = 3] holds [pool_size = 5] after a constructor call with
    the layer-wide argument [pool_size = 5]. *)
Lemma supplied_pool_size_is_replaced :
  __init__ override_args alternating = Ok override_layer
  /\ arg_subregion_layers override_args !! 0%nat = Some region_a
  /\ region_a !! "pool_size" = Some (VInt 3)
  /\ (exists d, subregion_layers override_layer !! 0%nat = Some d
                /\ d !! "pool_size" = Some (VInt 5))
  /\ ~ supplied_values_kept override_args override_layer.
Proof.
  split; [exact override_layer_built|].
  split; [reflexivity|]. split; [vm_compute; reflexivity|].
  split.
  { eexists. split; [reflexivity|]. vm_compute. reflexivity. }
  intros H.
  pose proof (H 0%nat region_a _ "pool_size" (VInt 3)
                eq_refl eq_refl) as H3.
  assert (Hin : "pool_size" ∈ (default_keys : list string)).
  { unfold default_keys. repeat constructor. }
  specialize (H3 Hin ltac:(vm_compute; reflexivity)).
  vm_compute in H3. discriminate H3.
Qed.

Lemma layer_wide_argument_replaces_region_value_witness :
  __init__ override_args alternating = Ok override_layer
  /\ exists d, subregion_layers override_layer !! 0%nat = Some d
               /\ d !! "pool_size" = Some (VInt 5).
Proof.
  split; [exact override_layer_built|].
  eexists. split; [reflexivity|].
  assert (Hin : "pool_size" ∈ (default_keys : list string)).
  { unfold default_keys. repeat constructor. }
  assert (Hc : "pool_size" ∈ copied_keys ->
               region_a !! "weight_share" = None).
  { intros _. vm_compute. reflexivity. }
  exact (layer_wide_argument_replaces_region_value override_args alternating
           override_layer 0%nat region_a _ "pool_size"
           override_layer_built eq_refl eq_refl Hin Hc).
Defined.

Lemma shared_cache_returned :
  feed_forward shared_layer shared_input false alternating = Ok shared_cache.
Proof. vm_compute. reflexivity. Qed.



Lemma shared_input_ready : feed_forward_ready shared_layer shared_input 1.
Proof.
  constructor.
  - unfold shared_input. repeat constructor.
  - reflexivity.
  - discriminate.
  - intros h x p [= <-]. discriminate.
Qed.


(** C5, as the claim has it, fails.  The layer has two regions over the
    columns [0, 7) and a fully-connected branch over the columns [7, 9).
    The mask that [feed_forward] samples has nine columns, and [backprop]
    turns the fully-connected segment [1, 1] of the output gradient into
    [1, 0]. *)
Lemma dropout_mask_changes_fully_connected_gradient :
  exists c mask r,
    feed_forward shared_layer shared_input false alternating = Ok c
    /\ c_dropout_mask c = Some mask
    /\ fc_layer_offset shared_layer = 7 /\ n_units shared_layer = 9
    /\ shape mask = [1; 9]
    /\ extract_columns mask 7 9
       = {| QGpu.dims := [1; 2]; QGpu.data := [1; 0]%Q |}
    /\ backprop shared_layer shared_input shared_df_output (Some c)
                alternating = Ok r
    /\ extract_columns shared_df_output 7 9
       = {| QGpu.dims := [1; 2]; QGpu.data := [1; 1]%Q |}
    /\ extract_columns (g_df_output r) 7 9
       = {| QGpu.dims := [1; 2]; QGpu.data := [1; 0]%Q |}
    /\ extract_columns (g_df_output r) 7 9
       <> extract_columns shared_df_output 7 9.
Proof.
  eexists shared_cache, _, _.
  split; [exact shared_cache_returned|].
  split; [reflexivity|].
  split; [reflexivity|]. split; [reflexivity|]. split; [reflexivity|].
  split; [vm_compute; reflexivity|].
  split; [vm_compute; reflexivity|].
  split; [vm_compute; reflexivity|].
  split; [vm_compute; reflexivity|].
  vm_compute. discriminate.
Qed.

Lemma qgpu_dims_with_columns (src dest : QGpu.arr) (off : Z) :
  QGpu.dims (QGpu.with_columns src dest off) = QGpu.dims dest.
Proof.
  unfold QGpu.with_columns.
  destruct (QGpu.dims src) as [|? [|w [|? ?]]]; try reflexivity.
  destruct (QGpu.dims dest) as [|r [|c0 [|? ?]]] eqn:E; simpl;
    by rewrite ?E.
Qed.

Lemma qgpu_shape_contracts : shape_contracts (Tensor := QGpu.arr).
Proof.
  constructor.
  - reflexivity.
  - intros x ps nf w off target argmax. apply qgpu_dims_with_columns.
  - intros src dest off. apply qgpu_dims_with_columns.
  - reflexivity.
Qed.

Lemma dropout_mask_covers_fully_connected_columns_witness :
  admissible (arg_subregion_layers shared_args)
  /\ __init__ shared_args alternating = Ok shared_layer
  /\ dropout_on shared_layer = true
  /\ feed_forward_ready shared_layer shared_input 1
  /\ exists c mask,
       feed_forward shared_layer shared_input false alternating = Ok c
       /\ c_dropout_mask c = Some mask
       /\ shape mask = [1; n_units shared_layer].
Proof.
  split; [left; exact shared_args_fresh|].
  split; [exact shared_layer_built|].
  split; [reflexivity|].
  split; [exact shared_input_ready|].
  destruct (dropout_mask_covers_fully_connected_columns shared_args
              alternating shared_layer shared_input 1 shared_df_output
              alternating alternating (or_introl shared_args_fresh)
              shared_layer_built eq_refl shared_input_ready)
    as (c & mask & Ec & Em & _ & Hs & _).
  exists c, mask. split; [exact Ec|]. split; [exact Em|].
  exact (proj1 (Hs qgpu_shape_contracts)).
Defined.

End Witnesses.
